(** * Meter drivers (modules/common/sdm.py) and the Sunny Island device
      (modules/devices/sma/sma_sunny_island/device.py)

    A shallow embedding of the two Python modules.  Python floats are IEEE
    binary64 values ([spec_float] at precision 53), methods are computations
    in a state-and-exception monad, and every call that leaves the module
    (the clock, [time.sleep], the Modbus client, [check_meter_values]) is
    recorded, with the wall-clock instant at which it was issued, in the
    trace of the world. *)

From Stdlib Require Import ZArith List String Bool Lia.
From Stdlib Require Import DecimalString.
From Stdlib Require Import Floats.SpecFloat.
Import ListNotations.
Open Scope Z_scope.


(** ** Python floats *)

Definition prec : Z := 53.
Definition emax : Z := 1024.

Definition float := spec_float.

(** [float(z)] for an int that is within the range of a double (outside it
    Python raises OverflowError; no int of this program gets there). *)
Definition float_of_Z (z : Z) : float := binary_normalize prec emax z 0 false.

Definition fadd : float -> float -> float := SFadd prec emax.
Definition fsub : float -> float -> float := SFsub prec emax.
Definition fmul : float -> float -> float := SFmul prec emax.
Definition fdiv : float -> float -> float := SFdiv prec emax.
Definition flt : float -> float -> bool := SFltb.

(** The float literals of the sources. *)
Definition f1e3 : float := float_of_Z 1000.
Definition f1e6 : float := float_of_Z 1000000.
Definition f1e9 : float := float_of_Z 1000000000.
Definition f0_0 : float := S754_zero false.

(** A Python number: list literals such as [[power, 0, 0]] mix both kinds. *)
Inductive number : Type :=
| PyInt (z : Z)
| PyFloat (f : float).

(** [x + y] on numbers: an int operand of a mixed sum is converted first. *)
Definition py_add (x y : number) : number :=
  match x, y with
  | PyInt a, PyInt b => PyInt (a + b)
  | PyInt a, PyFloat b => PyFloat (fadd (float_of_Z a) b)
  | PyFloat a, PyInt b => PyFloat (fadd a (float_of_Z b))
  | PyFloat a, PyFloat b => PyFloat (fadd a b)
  end.

(** The builtin [sum(iterable)]: left to right, starting from the int 0,
    by plain additions (the compensated summation of float items that
    CPython has from 3.12 on is left out). *)
Definition sum (l : list number) : number := fold_left py_add l (PyInt 0).

(** [f == z] for a float and an int: Python compares the exact values. *)
Definition float_eq_Z (f : float) (z : Z) : bool :=
  match f with
  | S754_zero _ => z =? 0
  | S754_finite s m e =>
      let v := if s then Z.neg m else Z.pos m in
      if 0 <=? e then z =? v * 2 ^ e
      else (v mod 2 ^ (- e) =? 0) && (z =? v / 2 ^ (- e))
  | _ => false
  end.

(** [x == y] on numbers. *)
Definition py_eq (x y : number) : bool :=
  match x, y with
  | PyInt a, PyInt b => a =? b
  | PyInt a, PyFloat b => float_eq_Z b a
  | PyFloat a, PyInt b => float_eq_Z a b
  | PyFloat a, PyFloat b => SFeqb a b
  end.

(** [str(n)] of an int. *)
Definition str (n : Z) : string := NilZero.string_of_int (Z.to_int n).

(** ** Exceptions, and computations that may raise *)

Inductive exn : Type :=
| Exception (name : string).

Inductive outcome (A : Type) : Type :=
| Returned (a : A)
| Raised (e : exn).
Arguments Returned {A} a.
Arguments Raised {A} e.

Section Computations.
Variable St : Type.

(** A computation over a mutable state: what it changed stays changed
    when it raises. *)
Definition M (A : Type) : Type := St -> outcome A * St.

Definition ret {A} (a : A) : M A := fun s => (Returned a, s).

Definition raise {A} (e : exn) : M A := fun s => (Raised e, s).

Definition bind {A B} (m : M A) (k : A -> M B) : M B :=
  fun s =>
    match m s with
    | (Returned a, s') => k a s'
    | (Raised e, s') => (Raised e, s')
    end.

Definition get : M St := fun s => (Returned s, s).
Definition gets {A} (f : St -> A) : M A := fun s => (Returned (f s), s).
Definition modify (f : St -> St) : M unit := fun s => (Returned tt, f s).

(** The [with] statement.  [enter] is the manager's [__enter__]; [exit]
    is its [__exit__], which receives the exception the body raised, if
    any, and whose true result on an exception swallows it. *)
Definition with_ (enter : M unit) (exit : option exn -> M bool)
           (body : M unit) : M unit :=
  fun s =>
    match enter s with
    | (Raised e, s1) => (Raised e, s1)
    | (Returned _, s1) =>
        match body s1 with
        | (Returned _, s2) =>
            match exit None s2 with
            | (Returned _, s3) => (Returned tt, s3)
            | (Raised e', s3) => (Raised e', s3)
            end
        | (Raised e, s2) =>
            match exit (Some e) s2 with
            | (Returned true, s3) => (Returned tt, s3)
            | (Returned false, s3) => (Raised e, s3)
            | (Raised e', s3) => (Raised e', s3)
            end
        end
    end.

(** [for x in xs: body(x)]; an exception leaving the body ends the loop. *)
Fixpoint for_each {A} (xs : list A) (body : A -> M unit) : M unit :=
  match xs with
  | [] => ret tt
  | x :: rest => bind (body x) (fun _ => for_each rest body)
  end.
End Computations.

Arguments ret {St A} a.
Arguments raise {St A} e.
Arguments bind {St A B} m k.
Arguments get {St}.
Arguments gets {St A} f.
Arguments modify {St} f.
Arguments with_ {St} enter exit body.
Arguments for_each {St A} xs body.

Declare Scope comp_scope.
Delimit Scope comp_scope with comp.
Notation "x <- m ;; k" := (bind m (fun x => k))
  (at level 61, m at next level, right associativity) : comp_scope.
Notation "m ;; k" := (bind m (fun _ => k))
  (at level 61, right associativity) : comp_scope.
Open Scope comp_scope.

(** A computation on the second component of a pair of states. *)
Definition lift {S W A} (m : M W A) : M (S * W) A :=
  fun sw =>
    let (r, w') := m (snd sw) in (r, (fst sw, w')).

(** ** modules/common: the collaborators of the meter drivers *)

(** The register types the drivers ask for. *)
Inductive ModbusDataType : Type :=
| UINT_32
| FLOAT_32.

(** The [types] argument of a read: one type, or a list of them. *)
Inductive read_types : Type :=
| One (t : ModbusDataType)
| Many (ts : list ModbusDataType).

(** A fault state is an object of the caller; the drivers only pass the
    reference on. *)
Definition FaultState : Type := nat.

Module component_state.
(** The keyword arguments of one [CounterState(...)] call; [voltages]
    and [power_factors] are the two that a caller may leave out. *)
Record CounterState : Type := {
  imported : float;
  exported : float;
  power : number;
  voltages : option (list number);
  currents : list number;
  powers : list number;
  power_factors : option (list number);
  frequency : float;
  serial_number : string
}.
End component_state.
Import component_state.

(** The calls that leave the module. *)
Inductive event : Type :=
| EvTimeNs                                                (* time.time_ns() *)
| EvSleep (secs : float)                                  (* time.sleep(secs) *)
| EvEnter                                                 (* client.__enter__() *)
| EvExit                                                  (* client.__exit__(...) *)
| EvReadHolding (address : Z) (types : read_types) (unit_id : Z)
| EvReadInput (address : Z) (types : read_types) (unit_id : Z)
| EvCheck (counter_state : CounterState) (fault_state : FaultState).

(** What the world outside answers.  Register reads are numbered in the
    order in which they are issued, sleeps likewise; an answer [None] is a
    transport error.  Latencies are in nanoseconds. *)
Record Environment : Type := {
  holding_uint32 : nat -> Z -> Z -> option Z;
  input_float32 : nat -> Z -> Z -> option float;
  input_float32s : nat -> Z -> nat -> Z -> option (list float);
  read_latency : nat -> N;
  oversleep : nat -> N
}.

Record World : Type := {
  env : Environment;
  clock : Z;                     (* wall clock, nanoseconds *)
  reads_issued : nat;
  sleeps_done : nat;
  trace : list (Z * event)       (* oldest first, each with its instant *)
}.

Definition log (e : event) : M World unit :=
  modify (fun w =>
    {| env := env w; clock := clock w; reads_issued := reads_issued w;
       sleeps_done := sleeps_done w; trace := trace w ++ [(clock w, e)] |}).

Definition advance (d : Z) : M World unit :=
  modify (fun w =>
    {| env := env w; clock := clock w + d; reads_issued := reads_issued w;
       sleeps_done := sleeps_done w; trace := trace w |}).

Definition next_read : M World nat :=
  fun w =>
    (Returned (reads_issued w),
     {| env := env w; clock := clock w; reads_issued := S (reads_issued w);
        sleeps_done := sleeps_done w; trace := trace w |}).

Definition next_sleep : M World nat :=
  fun w =>
    (Returned (sleeps_done w),
     {| env := env w; clock := clock w; reads_issued := reads_issued w;
        sleeps_done := S (sleeps_done w); trace := trace w |}).

Definition TransportError : exn := Exception "ModbusException".
Definition ValueError : exn := Exception "ValueError".
Definition OverflowError : exn := Exception "OverflowError".

Module time.
(** [time.time_ns()] *)
Definition time_ns : M World Z :=
  log EvTimeNs ;; gets clock.

(** The whole nanoseconds of a sleep of [secs] seconds: the float product
    with 1e9, rounded up.  A negative or NaN length is a ValueError, one
    that does not fit 63 bits an OverflowError. *)
Definition sleep_length (secs : float) : outcome Z :=
  match fmul secs f1e9 with
  | S754_zero _ => Returned 0
  | S754_finite false m e =>
      let ns := if 0 <=? e then Z.pos m * 2 ^ e
                else - ((- Z.pos m) / 2 ^ (- e)) in
      if ns <? 2 ^ 63 then Returned ns else Raised OverflowError
  | S754_finite true _ _ => Raised ValueError
  | S754_infinity _ => Raised OverflowError
  | S754_nan => Raised ValueError
  end.

(** [time.sleep(secs)]: the caller is suspended for the length asked for,
    and for whatever the world adds to it. *)
Definition sleep (secs : float) : M World unit :=
  log (EvSleep secs) ;;
  match sleep_length secs with
  | Raised e => raise e
  | Returned ns =>
      n <- next_sleep ;;
      over <- gets (fun w => oversleep (env w) n) ;;
      advance (ns + Z.of_N over)
  end.
End time.

Module modbus.
(** The client is not in the sources: each call on it is recorded, and
    what a read returns, or that it fails, is the world's to say.  As a
    context manager the client brackets a session, and its [__exit__]
    does not swallow what the body raised. *)
Definition enter : M World unit := log EvEnter.
Definition exit (raised : option exn) : M World bool :=
  log EvExit ;; ret false.

Definition transact {A} (answer : Environment -> nat -> option A)
  : M World A :=
  n <- next_read ;;
  e <- gets env ;;
  advance (Z.of_N (read_latency e n)) ;;
  match answer e n with
  | Some v => ret v
  | None => raise TransportError
  end.

(** [client.read_holding_registers(address, UINT_32, unit=unit_id)] *)
Definition read_holding_registers (address : Z) (unit_id : Z) : M World Z :=
  log (EvReadHolding address (One UINT_32) unit_id) ;;
  transact (fun e n => holding_uint32 e n address unit_id).

(** [client.read_input_registers(address, FLOAT_32, unit=unit_id)] *)
Definition read_input_registers (address : Z) (unit_id : Z) : M World float :=
  log (EvReadInput address (One FLOAT_32) unit_id) ;;
  transact (fun e n => input_float32 e n address unit_id).

(** [client.read_input_registers(address, [FLOAT_32]*count, unit=unit_id)] *)
Definition read_input_registers_list (address : Z) (count : nat)
           (unit_id : Z) : M World (list number) :=
  log (EvReadInput address (Many (repeat FLOAT_32 count)) unit_id) ;;
  fs <- transact (fun e n => input_float32s e n address count unit_id) ;;
  ret (map PyFloat fs).
End modbus.

Module hardware_check.
(** [check_meter_values(counter_state, fault_state)]: the rules are the
    collaborator's; the driver's part is the call. *)
Definition check_meter_values (counter_state : CounterState)
           (fault_state : FaultState) : M World unit :=
  log (EvCheck counter_state fault_state).
End hardware_check.

(** ** modules/common/sdm.py *)

Module Sdm.
(** The attributes of a driver instance.  [fault_state] is the one that
    both subclasses add; the client is the transport of the world. *)
Record t : Type := {
  id : Z;
  last_query : float;
  WAIT_MS_BETWEEN_QUERIES : Z;
  serial_number : string;
  fault_state : FaultState
}.

(** A method: a computation on [self] and the world. *)
Definition Method (A : Type) : Type := M (t * World) A.

Definition self {A} (f : t -> A) : Method A := gets (fun sw => f (fst sw)).

Definition assign (f : t -> t) : Method unit :=
  modify (fun sw => (f (fst sw), snd sw)).

Definition set_id (v : Z) (s : t) : t :=
  {| id := v; last_query := last_query s;
     WAIT_MS_BETWEEN_QUERIES := WAIT_MS_BETWEEN_QUERIES s;
     serial_number := serial_number s; fault_state := fault_state s |}.

Definition set_last_query (v : float) (s : t) : t :=
  {| id := id s; last_query := v;
     WAIT_MS_BETWEEN_QUERIES := WAIT_MS_BETWEEN_QUERIES s;
     serial_number := serial_number s; fault_state := fault_state s |}.

Definition set_WAIT_MS_BETWEEN_QUERIES (v : Z) (s : t) : t :=
  {| id := id s; last_query := last_query s;
     WAIT_MS_BETWEEN_QUERIES := v;
     serial_number := serial_number s; fault_state := fault_state s |}.

Definition set_serial_number (v : string) (s : t) : t :=
  {| id := id s; last_query := last_query s;
     WAIT_MS_BETWEEN_QUERIES := WAIT_MS_BETWEEN_QUERIES s;
     serial_number := v; fault_state := fault_state s |}.

Definition set_fault_state (v : FaultState) (s : t) : t :=
  {| id := id s; last_query := last_query s;
     WAIT_MS_BETWEEN_QUERIES := WAIT_MS_BETWEEN_QUERIES s;
     serial_number := serial_number s; fault_state := v |}.

Definition _get_time_ms : Method float :=
  ns <- lift time.time_ns ;;
  ret (fdiv (float_of_Z ns) f1e6).

(** The interval is the int 100 on every instance, so that its conversion
    in the comparison and in the difference is exact. *)
Definition _ensure_min_time_between_queries : Method unit :=
  current_time <- _get_time_ms ;;
  last <- self last_query ;;
  wait <- self WAIT_MS_BETWEEN_QUERIES ;;
  let elapsed_time := fsub current_time last in
  (if flt elapsed_time (float_of_Z wait)
   then lift (time.sleep (fdiv (fsub (float_of_Z wait) elapsed_time) f1e3))
   else ret tt) ;;
  assign (set_last_query current_time).

Definition __init__ (modbus_id : Z) : Method unit :=
  assign (set_id modbus_id) ;;
  now <- _get_time_ms ;;
  assign (set_last_query now) ;;
  assign (set_WAIT_MS_BETWEEN_QUERIES 100) ;;
  with_ (lift modbus.enter) (fun raised => lift (modbus.exit raised))
    (unit_id <- self id ;;
     n <- lift (modbus.read_holding_registers 0xFC00 unit_id) ;;
     assign (set_serial_number (str n))).

Definition get_imported : Method float :=
  _ensure_min_time_between_queries ;;
  unit_id <- self id ;;
  v <- lift (modbus.read_input_registers 0x0048 unit_id) ;;
  ret (fmul v (float_of_Z 1000)).

Definition get_exported : Method float :=
  _ensure_min_time_between_queries ;;
  unit_id <- self id ;;
  v <- lift (modbus.read_input_registers 0x004a unit_id) ;;
  ret (fmul v (float_of_Z 1000)).

Definition get_frequency : Method float :=
  _ensure_min_time_between_queries ;;
  unit_id <- self id ;;
  frequency <- lift (modbus.read_input_registers 0x46 unit_id) ;;
  ret (if flt (float_of_Z 100) frequency
       then fdiv frequency (float_of_Z 10)
       else frequency).

Definition get_serial_number : Method string := self serial_number.

(** An object before its [__init__] has run; each attribute is assigned
    there before any method can read it. *)
Definition blank : t :=
  {| id := 0; last_query := f0_0; WAIT_MS_BETWEEN_QUERIES := 0;
     serial_number := ""; fault_state := 0%nat |}.

(** [Class(args)]: allocate, run the initialiser, hand out the object. *)
Definition construct (init : Method unit) : M World t :=
  fun w =>
    match init (blank, w) with
    | (Returned _, (s, w')) => (Returned s, w')
    | (Raised e, (_, w')) => (Raised e, w')
    end.
End Sdm.

Module Sdm630_72.
Import Sdm.

Definition __init__ (modbus_id : Z) (fault_state : FaultState) : Method unit :=
  Sdm.__init__ modbus_id ;;
  assign (set_fault_state fault_state).

Definition get_currents : Method (list number) :=
  _ensure_min_time_between_queries ;;
  unit_id <- self id ;;
  lift (modbus.read_input_registers_list 0x06 3 unit_id).

Definition get_power_factors : Method (list number) :=
  _ensure_min_time_between_queries ;;
  unit_id <- self id ;;
  lift (modbus.read_input_registers_list 0x1E 3 unit_id).

Definition get_power : Method (list number * number) :=
  _ensure_min_time_between_queries ;;
  unit_id <- self id ;;
  powers <- lift (modbus.read_input_registers_list 0x0C 3 unit_id) ;;
  let power := sum powers in
  ret (powers, power).

Definition get_voltages : Method (list number) :=
  _ensure_min_time_between_queries ;;
  unit_id <- self id ;;
  lift (modbus.read_input_registers_list 0x00 3 unit_id).

Definition get_counter_state : Method CounterState :=
  pp <- get_power ;;
  let (powers, power) := pp : list number * number in
  imported <- get_imported ;;
  exported <- get_exported ;;
  voltages <- get_voltages ;;
  currents <- get_currents ;;
  power_factors <- get_power_factors ;;
  frequency <- get_frequency ;;
  serial_number <- get_serial_number ;;
  let counter_state :=
    {| component_state.imported := imported;
       component_state.exported := exported;
       component_state.power := power;
       component_state.voltages := Some voltages;
       component_state.currents := currents;
       component_state.powers := powers;
       component_state.power_factors := Some power_factors;
       component_state.frequency := frequency;
       component_state.serial_number := serial_number |} in
  fs <- self Sdm.fault_state ;;
  lift (hardware_check.check_meter_values counter_state fs) ;;
  ret counter_state.

Definition new (modbus_id : Z) (fault_state : FaultState) : M World Sdm.t :=
  construct (__init__ modbus_id fault_state).
End Sdm630_72.

Module Sdm120.
Import Sdm.

Definition __init__ (modbus_id : Z) (fault_state : FaultState) : Method unit :=
  Sdm.__init__ modbus_id ;;
  assign (set_fault_state fault_state).

Definition get_power : Method (list number * number) :=
  _ensure_min_time_between_queries ;;
  unit_id <- self id ;;
  power <- lift (modbus.read_input_registers 0x0C unit_id) ;;
  ret ([PyFloat power; PyInt 0; PyInt 0], PyFloat power).

Definition get_currents : Method (list number) :=
  _ensure_min_time_between_queries ;;
  unit_id <- self id ;;
  v <- lift (modbus.read_input_registers 0x06 unit_id) ;;
  ret [PyFloat v; PyFloat f0_0; PyFloat f0_0].

Definition get_voltages : Method (list number) :=
  _ensure_min_time_between_queries ;;
  unit_id <- self id ;;
  voltage <- lift (modbus.read_input_registers 0x00 unit_id) ;;
  ret [PyFloat voltage; PyFloat f0_0; PyFloat f0_0].

Definition get_power_factors : Method (list number) :=
  _ensure_min_time_between_queries ;;
  unit_id <- self id ;;
  v <- lift (modbus.read_input_registers 0x1E unit_id) ;;
  ret [PyFloat v; PyFloat f0_0; PyFloat f0_0].

Definition get_counter_state : Method CounterState :=
  pp <- get_power ;;
  let (powers, power) := pp : list number * number in
  imported <- get_imported ;;
  exported <- get_exported ;;
  currents <- get_currents ;;
  frequency <- get_frequency ;;
  serial_number <- get_serial_number ;;
  let counter_state :=
    {| component_state.imported := imported;
       component_state.exported := exported;
       component_state.power := power;
       component_state.voltages := None;
       component_state.currents := currents;
       component_state.powers := powers;
       component_state.power_factors := None;
       component_state.frequency := frequency;
       component_state.serial_number := serial_number |} in
  fs <- self Sdm.fault_state ;;
  lift (hardware_check.check_meter_values counter_state fs) ;;
  ret counter_state.

Definition new (modbus_id : Z) (fault_state : FaultState) : M World Sdm.t :=
  construct (__init__ modbus_id fault_state).
End Sdm120.

(** ** modules/devices/sma/sma_sunny_island/device.py *)

Module component_context.
(** What a component's fault state shows after an update cycle. *)
Inductive status : Type :=
| no_error
| from_exception (e : exn).
End component_context.

Module device.
Import component_context.

Record SmaSunnyIslandConfiguration : Type := {
  ip_address : string;
  port : Z
}.

(** [modbus.ModbusTcpClient_(ip_address, port)] *)
Record ModbusTcpClient_ : Type := {
  host : string;
  tcp_port : Z
}.

(** Modelled from the spec: [SunnyIslandBat] of bat.py, which is not in
    the sources; a component has its fault state and an update routine,
    and "an error updating one component" is that routine raising. *)
Record SunnyIslandBat : Type := {
  component_id : nat;
  fault_state : FaultState;
  update_raises : option exn
}.

Inductive call : Type :=
| Open (c : ModbusTcpClient_)          (* client.__enter__() *)
| Close (c : ModbusTcpClient_)         (* client.__exit__(...) *)
| Update (component : nat).            (* component.update() *)

(** The variable [client] of the closure, the calls made so far (oldest
    first) and the fault states of the components. *)
Record State : Type := {
  client : option ModbusTcpClient_;
  calls_made : list call;
  fault_states : FaultState -> status
}.

Definition note (c : call) : M State unit :=
  modify (fun d =>
    {| client := client d; calls_made := calls_made d ++ [c];
       fault_states := fault_states d |}).

Definition record (fs : FaultState) (st : status) : M State unit :=
  modify (fun d =>
    {| client := client d; calls_made := calls_made d;
       fault_states := fun h => if Nat.eqb h fs then st else fault_states d h |}).

(** Modelled from the spec: the client's [__enter__] and [__exit__], which
    are not in the sources; "scoped session bracket", open on entry and
    close on exit, and an exception of the body is not swallowed. *)
Definition client_enter (c : ModbusTcpClient_) : M State unit := note (Open c).

Definition client_exit (c : ModbusTcpClient_) (raised : option exn)
  : M State bool :=
  note (Close c) ;; ret false.

(** Modelled from the spec: [SingleComponentUpdateContext], which is not
    in the sources; "an error updating one component is caught, recorded
    against that component's FaultState, and does not prevent subsequent
    components from updating", and after an update that succeeded the
    fault state "reflects a successful update". *)
Definition SingleComponentUpdateContext_enter (fs : FaultState)
  : M State unit := ret tt.

Definition SingleComponentUpdateContext_exit (fs : FaultState)
           (raised : option exn) : M State bool :=
  match raised with
  | None => record fs no_error ;; ret true
  | Some e => record fs (from_exception e) ;; ret true
  end.

(** [component.update()] *)
Definition update (component : SunnyIslandBat) : M State unit :=
  note (Update (component_id component)) ;;
  match update_raises component with
  | None => ret tt
  | Some e => raise e
  end.

Definition update_components (components : list SunnyIslandBat)
  : M State unit :=
  c <- gets client ;;
  match c with
  | None => raise (Exception "AttributeError")      (* [with None:] *)
  | Some cl =>
      with_ (client_enter cl) (client_exit cl)
        (for_each components (fun component =>
           with_ (SingleComponentUpdateContext_enter (fault_state component))
                 (SingleComponentUpdateContext_exit (fault_state component))
                 (update component)))
  end.

Definition initializer (configuration : SmaSunnyIslandConfiguration)
  : M State unit :=
  modify (fun d =>
    {| client := Some {| host := ip_address configuration;
                         tcp_port := port configuration |};
       calls_made := calls_made d; fault_states := fault_states d |}).

(** [create_device] binds [client = None]. *)
Definition create_device (faults : FaultState -> status) : State :=
  {| client := None; calls_made := []; fault_states := faults |}.

(** [create_bat_component(component_config)], as the arguments with which
    it constructs the component: the setup it was given, and the [client]
    of the closure as it is at the time of the call. *)
Definition create_bat_component {Setup : Type} (component_config : Setup)
  : M State (Setup * option ModbusTcpClient_) :=
  c <- gets client ;;
  ret (component_config, c).
End device.

(** ** Reading a trace *)

Definition ms_of_ns (ns : Z) : float := fdiv (float_of_Z ns) f1e6.

Definition is_sleep (e : event) : bool :=
  match e with EvSleep _ => true | _ => false end.

Definition is_clock_query (e : event) : bool :=
  match e with EvTimeNs => true | _ => false end.

Definition is_input_read (e : event) : bool :=
  match e with EvReadInput _ _ _ => true | _ => false end.

Definition is_check (e : event) : bool :=
  match e with EvCheck _ _ => true | _ => false end.

(** The calls of a trace other than the sleeps of the rate limiter. *)
Definition calls (tr : list (Z * event)) : list event :=
  filter (fun e => negb (is_sleep e)) (map snd tr).

(** The instants at which the clock was read. *)
Definition clock_queries (tr : list (Z * event)) : list Z :=
  map fst (filter (fun te => is_clock_query (snd te)) tr).

(** The input-register reads, each with the instant at which it was issued. *)
Definition input_reads (tr : list (Z * event)) : list (Z * event) :=
  filter (fun te => is_input_read (snd te)) tr.

(** Whether each instant of a list is at least [gap] after the one before. *)
Fixpoint spaced (gap : Z) (instants : list Z) : bool :=
  match instants with
  | a :: (b :: _) as rest => (a + gap <=? b) && spaced gap rest
  | _ => true
  end.

(** ** A test bench: every read takes 20 ms, sleeps end on time *)

Definition f32x3 : read_types := Many [FLOAT_32; FLOAT_32; FLOAT_32].

Definition bench : Environment :=
  {| holding_uint32 := fun _ _ _ => Some 21034567;
     input_float32 := fun _ _ _ => Some (float_of_Z 50);
     input_float32s := fun _ _ _ _ =>
       Some [float_of_Z 100; float_of_Z 150; float_of_Z 120];
     read_latency := fun _ => 20000000%N;
     oversleep := fun _ => 0%N |}.

Definition epoch : Z := 1700000000000000000.

Definition power_on : World :=
  {| env := bench; clock := epoch; reads_issued := 0; sleeps_done := 0;
     trace := [] |}.

(** ** The vocabulary of the statements about the drivers *)

Module SdmSpec.
Import Sdm.

(** A read of one float behind the limiter, as every scalar accessor
    issues it. *)
Definition limited_read (address : Z) : Method float :=
  _ensure_min_time_between_queries ;;
  unit_id <- self id ;;
  lift (modbus.read_input_registers address unit_id).

(** A read of three floats behind the limiter. *)
Definition limited_read_list (address : Z) : Method (list number) :=
  _ensure_min_time_between_queries ;;
  unit_id <- self id ;;
  lift (modbus.read_input_registers_list address 3 unit_id).

(** What a rate-limited read that returned [v] has done to the object and
    the world: [req] is the one read it issued, [answer] says where [v]
    came from. *)
Definition limited (req : event) (answer : World -> Prop)
           (s : t) (w : World) (s' : t) (w' : World) : Prop :=
  s' = set_last_query (ms_of_ns (clock w)) s /\
  env w' = env w /\
  reads_issued w' = S (reads_issued w) /\
  answer w /\
  exists tr, trace w' = trace w ++ tr /\
             calls tr = [EvTimeNs; req] /\ clock_queries tr = [clock w].

(** The calls of one snapshot of the three-phase meter. *)
Definition three_phase_calls (unit_id : Z) : list event :=
  [EvTimeNs; EvReadInput 0x0C f32x3 unit_id;
   EvTimeNs; EvReadInput 0x0048 (One FLOAT_32) unit_id;
   EvTimeNs; EvReadInput 0x004a (One FLOAT_32) unit_id;
   EvTimeNs; EvReadInput 0x00 f32x3 unit_id;
   EvTimeNs; EvReadInput 0x06 f32x3 unit_id;
   EvTimeNs; EvReadInput 0x1E f32x3 unit_id;
   EvTimeNs; EvReadInput 0x46 (One FLOAT_32) unit_id].

(** The calls of one snapshot of the single-phase meter. *)
Definition single_phase_calls (unit_id : Z) : list event :=
  [EvTimeNs; EvReadInput 0x0C (One FLOAT_32) unit_id;
   EvTimeNs; EvReadInput 0x0048 (One FLOAT_32) unit_id;
   EvTimeNs; EvReadInput 0x004a (One FLOAT_32) unit_id;
   EvTimeNs; EvReadInput 0x06 (One FLOAT_32) unit_id;
   EvTimeNs; EvReadInput 0x46 (One FLOAT_32) unit_id].

(** The two meter variants. *)
Inductive variant : Type :=
| ThreePhase          (* Sdm630_72 *)
| SinglePhase.        (* Sdm120 *)

Definition new_of (v : variant) : Z -> FaultState -> M World Sdm.t :=
  match v with
  | ThreePhase => Sdm630_72.new
  | SinglePhase => Sdm120.new
  end.

Definition get_counter_state_of (v : variant) : Method CounterState :=
  match v with
  | ThreePhase => Sdm630_72.get_counter_state
  | SinglePhase => Sdm120.get_counter_state
  end.

Definition is_register_read (e : event) : bool :=
  match e with
  | EvReadHolding _ _ _ | EvReadInput _ _ _ => true
  | _ => false
  end.

(** The register reads of a trace, in the order in which they were issued. *)
Definition register_reads (tr : list (Z * event)) : list event :=
  filter is_register_read (map snd tr).

(** The checks of meter values of a trace. *)
Definition checks (tr : list (Z * event)) : list event :=
  filter is_check (map snd tr).

(** A list of three whose second and third element are [== 0.0]. *)
Definition zero_padded (l : list number) : bool :=
  match l with
  | [_; b; c] => py_eq b (PyFloat f0_0) && py_eq c (PyFloat f0_0)
  | _ => false
  end.

(** The value of a computation that returned. *)
Definition returned_or {A} (default : A) (o : outcome A) : A :=
  match o with
  | Returned a => a
  | Raised _ => default
  end.

(** On the bench: a meter with unit id 1 is constructed at power-on. *)
Definition bench_meter (v : variant) : Sdm.t :=
  returned_or blank (fst (new_of v 1 7%nat power_on)).

Definition bench_world (v : variant) : World :=
  snd (new_of v 1 7%nat power_on).

(** ... and asked for a snapshot at once. *)
Definition bench_snapshot (v : variant)
  : outcome CounterState * (Sdm.t * World) :=
  get_counter_state_of v (bench_meter v, bench_world v).

Definition no_counter_state : CounterState :=
  {| imported := f0_0; exported := f0_0; power := PyInt 0;
     voltages := None; currents := []; powers := [];
     power_factors := None; frequency := f0_0;
     component_state.serial_number := "" |}.

Definition bench_counter_state (v : variant) : CounterState :=
  returned_or no_counter_state (fst (bench_snapshot v)).

Definition snapshot_meter (v : variant) : Sdm.t := fst (snd (bench_snapshot v)).

Definition snapshot_world (v : variant) : World := snd (snd (bench_snapshot v)).

(** ... or, instead, taken through the limiter once. *)
Definition bench_limiter (v : variant) : outcome unit * (Sdm.t * World) :=
  _ensure_min_time_between_queries (bench_meter v, bench_world v).

Definition limiter_meter (v : variant) : Sdm.t := fst (snd (bench_limiter v)).

Definition limiter_world (v : variant) : World := snd (snd (bench_limiter v)).

(** One millisecond, in nanoseconds. *)
Definition ms : Z := 1000000.

(** A meter constructed at power-on on a bench whose scalar registers all
    hold [raw]. *)
Definition bench_holding (raw : float) : World :=
  {| env :=
       {| holding_uint32 := holding_uint32 bench;
          input_float32 := fun _ _ _ => Some raw;
          input_float32s := input_float32s bench;
          read_latency := read_latency bench;
          oversleep := oversleep bench |};
     clock := epoch; reads_issued := 0; sleeps_done := 0; trace := [] |}.

Definition frequency_of (raw : float) : outcome float :=
  fst (get_frequency
         (returned_or blank (fst (Sdm120.new 1 7%nat (bench_holding raw))),
          snd (Sdm120.new 1 7%nat (bench_holding raw)))).
End SdmSpec.

Module DeviceSpec.
Import component_context device.

(** What the fault state of a component shows after its update. *)
Definition recorded (c : SunnyIslandBat) : status :=
  match update_raises c with
  | None => no_error
  | Some e => from_exception e
  end.

(** The body of the loop of [update_components]. *)
Definition guarded_update (component : SunnyIslandBat) : M State unit :=
  with_ (SingleComponentUpdateContext_enter (fault_state component))
        (SingleComponentUpdateContext_exit (fault_state component))
        (update component).

Definition after_update (c : SunnyIslandBat) (d : State) : State :=
  {| client := client d;
     calls_made := calls_made d ++ [Update (component_id c)];
     fault_states := fun h =>
       if Nat.eqb h (fault_state c) then recorded c else fault_states d h |}.

(** A device with three batteries, the first and the last of which fail. *)
Definition island : SmaSunnyIslandConfiguration :=
  {| ip_address := "192.168.1.20"; port := 502 |}.

Definition island_client : ModbusTcpClient_ :=
  {| host := "192.168.1.20"; tcp_port := 502 |}.

Definition batteries : list SunnyIslandBat :=
  [ {| component_id := 0; fault_state := 10%nat;
       update_raises := Some (Exception "ConnectionError") |};
    {| component_id := 1; fault_state := 11%nat; update_raises := None |};
    {| component_id := 2; fault_state := 12%nat;
       update_raises := Some (Exception "ValueError") |} ].

Definition island_device : State :=
  snd (initializer island (create_device (fun _ => no_error))).
End DeviceSpec.

(** ** The accessors of the drivers, as a table *)

Module Accessor.
Import Sdm.

Inductive t : Type :=
| Sdm_get_imported
| Sdm_get_exported
| Sdm_get_frequency
| Sdm630_72_get_currents
| Sdm630_72_get_power_factors
| Sdm630_72_get_power
| Sdm630_72_get_voltages
| Sdm120_get_power
| Sdm120_get_currents
| Sdm120_get_voltages
| Sdm120_get_power_factors.

Definition all : list t :=
  [Sdm_get_imported; Sdm_get_exported; Sdm_get_frequency;
   Sdm630_72_get_currents; Sdm630_72_get_power_factors; Sdm630_72_get_power;
   Sdm630_72_get_voltages; Sdm120_get_power; Sdm120_get_currents;
   Sdm120_get_voltages; Sdm120_get_power_factors].

(** A method run for what it does, its result dropped. *)
Definition discard {A} (m : Method A) : Method unit := m ;; ret tt.

Definition run (a : t) : Method unit :=
  match a with
  | Sdm_get_imported => discard Sdm.get_imported
  | Sdm_get_exported => discard Sdm.get_exported
  | Sdm_get_frequency => discard Sdm.get_frequency
  | Sdm630_72_get_currents => discard Sdm630_72.get_currents
  | Sdm630_72_get_power_factors => discard Sdm630_72.get_power_factors
  | Sdm630_72_get_power => discard Sdm630_72.get_power
  | Sdm630_72_get_voltages => discard Sdm630_72.get_voltages
  | Sdm120_get_power => discard Sdm120.get_power
  | Sdm120_get_currents => discard Sdm120.get_currents
  | Sdm120_get_voltages => discard Sdm120.get_voltages
  | Sdm120_get_power_factors => discard Sdm120.get_power_factors
  end.

(** The register each accessor reads ... *)
Definition address (a : t) : Z :=
  match a with
  | Sdm_get_imported => 0x0048
  | Sdm_get_exported => 0x004a
  | Sdm_get_frequency => 0x46
  | Sdm630_72_get_currents => 0x06
  | Sdm630_72_get_power_factors => 0x1E
  | Sdm630_72_get_power => 0x0C
  | Sdm630_72_get_voltages => 0x00
  | Sdm120_get_power => 0x0C
  | Sdm120_get_currents => 0x06
  | Sdm120_get_voltages => 0x00
  | Sdm120_get_power_factors => 0x1E
  end.

(** ... and whether it reads three floats in one burst, or one float. *)
Definition burst (a : t) : bool :=
  match a with
  | Sdm630_72_get_currents | Sdm630_72_get_power_factors
  | Sdm630_72_get_power | Sdm630_72_get_voltages => true
  | _ => false
  end.

Definition types (a : t) : read_types :=
  if burst a then f32x3 else One FLOAT_32.

(** Whether the bus leaves the read of [a], issued as read number [n] to
    unit [unit_id], without an answer. *)
Definition unanswered (a : t) (e : Environment) (n : nat) (unit_id : Z)
  : Prop :=
  if burst a
  then input_float32s e n (address a) 3 unit_id = None
  else input_float32 e n (address a) unit_id = None.
End Accessor.

(** ** A bench on which one read fails, and a device run for several cycles *)

Module Faulty.
(** The bench, but the read number [k] gets no answer. *)
Definition failing_at (k : nat) : Environment :=
  {| holding_uint32 := fun n a u =>
       if Nat.eqb n k then None else holding_uint32 bench n a u;
     input_float32 := fun n a u =>
       if Nat.eqb n k then None else input_float32 bench n a u;
     input_float32s := fun n a c u =>
       if Nat.eqb n k then None else input_float32s bench n a c u;
     read_latency := read_latency bench;
     oversleep := oversleep bench |}.

Definition power_on_failing_at (k : nat) : World :=
  {| env := failing_at k; clock := epoch; reads_issued := 0;
     sleeps_done := 0; trace := [] |}.

(** A meter of variant [v] constructed on that bench, and its world. *)
Definition meter (v : SdmSpec.variant) (k : nat) : Sdm.t :=
  SdmSpec.returned_or Sdm.blank
    (fst (SdmSpec.new_of v 1 7%nat (power_on_failing_at k))).

Definition world (v : SdmSpec.variant) (k : nat) : World :=
  snd (SdmSpec.new_of v 1 7%nat (power_on_failing_at k)).

(** The bench, but every burst read is answered with [l]. *)
Definition power_on_bursting (l : list float) : World :=
  {| env :=
       {| holding_uint32 := holding_uint32 bench;
          input_float32 := input_float32 bench;
          input_float32s := fun _ _ _ _ => Some l;
          read_latency := read_latency bench;
          oversleep := oversleep bench |};
     clock := epoch; reads_issued := 0; sleeps_done := 0; trace := [] |}.
End Faulty.

Module SnapshotSpec.
Import Sdm.

(** What [get_frequency] makes of the raw reading. *)
Definition scaled_frequency (raw : float) : float :=
  if flt (float_of_Z 100) raw then fdiv raw (float_of_Z 10) else raw.

(** Two states of a driver that differ in [last_query] at most. *)
Definition same_identity (s s' : Sdm.t) : Prop :=
  id s' = id s /\
  WAIT_MS_BETWEEN_QUERIES s' = WAIT_MS_BETWEEN_QUERIES s /\
  Sdm.serial_number s' = Sdm.serial_number s /\
  fault_state s' = fault_state s.

(** A method that, however it ends, leaves the driver as it was but for
    [last_query]. *)
Definition preserves {A} (m : Method A) : Prop :=
  forall s w r s' w', m (s, w) = (r, (s', w')) -> same_identity s s'.

(** The driver and the world after a method was run on the bench. *)
Definition after {A} (m : Method A) (v : SdmSpec.variant) : Sdm.t * World :=
  snd (m (SdmSpec.bench_meter v, SdmSpec.bench_world v)).
End SnapshotSpec.

Module Cycles.
Import component_context device.

(** One call of [update_components] after the other, as the scheduler
    makes them. *)
Definition cycles (rounds : list (list SunnyIslandBat)) : M State unit :=
  for_each rounds update_components.

(** The calls of one cycle on the client [cl]. *)
Definition bracket (cl : ModbusTcpClient_) (components : list SunnyIslandBat)
  : list call :=
  Open cl :: map (fun c => Update (component_id c)) components ++ [Close cl].

(** Whether a log of calls, read with the session open or not at its
    start, opens a session only when none is open, closes only the one
    that is open, and updates a component only inside one; the result is
    whether a session is open at the end. *)
Fixpoint scan (in_session : bool) (log : list call) : option bool :=
  match log with
  | [] => Some in_session
  | Open _ :: rest => if in_session then None else scan true rest
  | Close _ :: rest => if in_session then scan false rest else None
  | Update _ :: rest => if in_session then scan true rest else None
  end.

(** A log that starts and ends with no session open. *)
Definition well_bracketed (log : list call) : Prop :=
  scan false log = Some false.

(** The device after one cycle on the client [cl]. *)
Definition after_cycle (cl : ModbusTcpClient_)
           (components : list SunnyIslandBat) (d : State) : State :=
  {| client := client d;
     calls_made := calls_made d ++ bracket cl components;
     fault_states :=
       fault_states
         (fold_left (fun d c => DeviceSpec.after_update c d) components d) |}.

(** Two batteries that share one fault state. *)
Definition twins : list SunnyIslandBat :=
  [ {| component_id := 0; fault_state := 10%nat;
       update_raises := Some (Exception "ConnectionError") |};
    {| component_id := 1; fault_state := 10%nat; update_raises := None |} ].
End Cycles.

(** * Properties *)

(** ** Computations *)

Lemma bind_Returned {St A B} (m : M St A) (k : A -> M St B) s b s' :
  bind m k s = (Returned b, s') ->
  exists a s1, m s = (Returned a, s1) /\ k a s1 = (Returned b, s').
Proof.
  unfold bind. destruct (m s) as [[a | e] s1]; intros H.
  - exists a, s1. split; [reflexivity | exact H].
  - discriminate H.
Qed.

Lemma bind_Raised {St A B} (m : M St A) (k : A -> M St B) s e s' :
  bind m k s = (Raised e, s') ->
  m s = (Raised e, s') \/
  exists a s1, m s = (Returned a, s1) /\ k a s1 = (Raised e, s').
Proof.
  unfold bind. destruct (m s) as [[a | e0] s1]; intros H.
  - right. exists a, s1. split; [reflexivity | exact H].
  - left. inversion H. reflexivity.
Qed.

Lemma bind_step {St A B} (m : M St A) (k : A -> M St B) s a s1 :
  m s = (Returned a, s1) -> bind m k s = k a s1.
Proof. unfold bind. intros ->. reflexivity. Qed.

Lemma calls_app tr1 tr2 : calls (tr1 ++ tr2) = calls tr1 ++ calls tr2.
Proof. unfold calls. rewrite map_app, filter_app. reflexivity. Qed.

Lemma clock_queries_app tr1 tr2 :
  clock_queries (tr1 ++ tr2) = clock_queries tr1 ++ clock_queries tr2.
Proof. unfold clock_queries. rewrite filter_app, map_app. reflexivity. Qed.

Lemma filter_calls (p : event -> bool) tr :
  (forall d, p (EvSleep d) = false) ->
  filter p (map snd tr) = filter p (calls tr).
Proof.
  intros Hp. unfold calls.
  induction tr as [| [t e] tr IH]; simpl; [reflexivity |].
  destruct e; simpl; try (rewrite IH; reflexivity).
  rewrite Hp. exact IH.
Qed.

Lemma register_reads_calls tr :
  SdmSpec.register_reads tr = filter SdmSpec.is_register_read (calls tr).
Proof. apply filter_calls. reflexivity. Qed.

Lemma checks_calls tr : SdmSpec.checks tr = filter is_check (calls tr).
Proof. apply filter_calls. reflexivity. Qed.

(** ** The rate limiter *)

Module SdmFacts.
Import Sdm SdmSpec.

(** What a pass of the limiter that returns has done: it read the clock
    once, slept at most once, touched neither the bus nor any attribute but
    [last_query], and left in [last_query] the time it read on entry. *)
Lemma ensure_returned s w s' w' :
  _ensure_min_time_between_queries (s, w) = (Returned tt, (s', w')) ->
  s' = set_last_query (ms_of_ns (clock w)) s /\
  env w' = env w /\
  reads_issued w' = reads_issued w /\
  exists tr, trace w' = trace w ++ tr /\
             calls tr = [EvTimeNs] /\ clock_queries tr = [clock w].
Proof.
  unfold _ensure_min_time_between_queries, _get_time_ms, time.time_ns,
    self, assign, lift, bind, gets, modify, ret, log; simpl.
  destruct (flt _ _).
  - unfold time.sleep, bind, log, modify, next_sleep, advance, gets, raise;
      simpl.
    destruct (time.sleep_length _); simpl; intros H; [| discriminate H].
    inversion H; subst; clear H; simpl.
    repeat split. eexists. split.
    + rewrite <- app_assoc. reflexivity.
    + split; reflexivity.
  - intros H. inversion H; subst; clear H; simpl.
    repeat split. eexists. split; [reflexivity |]. split; reflexivity.
Qed.

Lemma limited_read_returned address s w v s' w' :
  limited_read address (s, w) = (Returned v, (s', w')) ->
  limited (EvReadInput address (One FLOAT_32) (id s))
    (fun w0 => input_float32 (env w0) (reads_issued w0) address (id s) = Some v)
    s w s' w'.
Proof.
  unfold limited_read. intros H.
  apply bind_Returned in H as ([] & [s1 w1] & He & H).
  apply ensure_returned in He as (-> & Henv & Hn & tr & Htr & Hc & Hq).
  revert H.
  unfold self, lift, modbus.read_input_registers, modbus.transact, bind,
    gets, modify, ret, raise, log, next_read, advance; simpl.
  rewrite Henv, Hn.
  destruct (input_float32 _ _ _ _) eqn:E; intros H; [| discriminate H].
  inversion H; subst; clear H; simpl.
  repeat split; try assumption.
  eexists. split.
  - rewrite Htr, <- app_assoc. reflexivity.
  - rewrite calls_app, clock_queries_app, Hc, Hq. split; reflexivity.
Qed.

Lemma limited_read_list_returned address s w l s' w' :
  limited_read_list address (s, w) = (Returned l, (s', w')) ->
  limited (EvReadInput address f32x3 (id s))
    (fun w0 => exists fs,
       input_float32s (env w0) (reads_issued w0) address 3 (id s) = Some fs /\
       l = map PyFloat fs)
    s w s' w'.
Proof.
  unfold limited_read_list. intros H.
  apply bind_Returned in H as ([] & [s1 w1] & He & H).
  apply ensure_returned in He as (-> & Henv & Hn & tr & Htr & Hc & Hq).
  revert H.
  unfold self, lift, modbus.read_input_registers_list, modbus.transact, bind,
    gets, modify, ret, raise, log, next_read, advance; simpl.
  rewrite Henv, Hn.
  destruct (input_float32s _ _ _ _ _) eqn:E; intros H; [| discriminate H].
  inversion H; subst; clear H; simpl.
  repeat split; try assumption.
  - eexists. split; [eassumption | reflexivity].
  - eexists. split.
    + rewrite Htr, <- app_assoc. reflexivity.
    + rewrite calls_app, clock_queries_app, Hc, Hq. split; reflexivity.
Qed.
(** When less than the interval has elapsed since [last_query], the limiter
    sleeps for the remaining difference, and otherwise not at all. *)
Lemma ensure_sleeps_for_remainder s w s' w' :
  _ensure_min_time_between_queries (s, w) = (Returned tt, (s', w')) ->
  let elapsed_time := fsub (ms_of_ns (clock w)) (last_query s) in
  let wait := float_of_Z (WAIT_MS_BETWEEN_QUERIES s) in
  trace w' =
    trace w ++ (clock w, EvTimeNs) ::
      (if flt elapsed_time wait
       then [(clock w, EvSleep (fdiv (fsub wait elapsed_time) f1e3))]
       else []).
Proof.
  unfold _ensure_min_time_between_queries, _get_time_ms, time.time_ns,
    self, assign, lift, bind, gets, modify, ret, log, ms_of_ns; simpl.
  destruct (flt _ _).
  - unfold time.sleep, bind, log, modify, next_sleep, advance, gets, raise;
      simpl.
    destruct (time.sleep_length _); simpl; intros H; [| discriminate H].
    inversion H; subst; clear H; simpl.
    rewrite <- app_assoc. reflexivity.
  - intros H. inversion H; subst; clear H; simpl. reflexivity.
Qed.

(** An accessor that returns is its rate-limited read that returned,
    followed by what it makes of the value. *)
Lemma scalar_accessor_returned {A} address (k : float -> A) s w r s' w' :
  (_ensure_min_time_between_queries ;;
   unit_id <- self id ;;
   v <- lift (modbus.read_input_registers address unit_id) ;;
   ret (k v)) (s, w) = (Returned r, (s', w')) ->
  exists v, r = k v /\
    limited (EvReadInput address (One FLOAT_32) (id s))
      (fun w0 =>
         input_float32 (env w0) (reads_issued w0) address (id s) = Some v)
      s w s' w'.
Proof.
  intros H.
  assert (Hs : bind (limited_read address) (fun v => ret (k v)) (s, w)
               = (Returned r, (s', w'))).
  { rewrite <- H. unfold limited_read, bind.
    destruct (_ensure_min_time_between_queries (s, w)) as [[[] | e] s1];
      [| reflexivity].
    destruct (self id s1) as [[u | e] s2]; [| reflexivity].
    destruct (lift (modbus.read_input_registers address u) s2)
      as [[v | e] s3]; reflexivity. }
  apply bind_Returned in Hs as (v & [s1 w1] & Hr & Hk).
  unfold ret in Hk. inversion Hk; subst; clear Hk.
  exists v. split; [reflexivity |].
  apply limited_read_returned. exact Hr.
Qed.

Lemma list_accessor_returned {A} address (k : list number -> A) s w r s' w' :
  (_ensure_min_time_between_queries ;;
   unit_id <- self id ;;
   l <- lift (modbus.read_input_registers_list address 3 unit_id) ;;
   ret (k l)) (s, w) = (Returned r, (s', w')) ->
  exists l, r = k l /\
    limited (EvReadInput address f32x3 (id s))
      (fun w0 => exists fs,
         input_float32s (env w0) (reads_issued w0) address 3 (id s) = Some fs
         /\ l = map PyFloat fs)
      s w s' w'.
Proof.
  intros H.
  assert (Hs : bind (limited_read_list address) (fun l => ret (k l)) (s, w)
               = (Returned r, (s', w'))).
  { rewrite <- H. unfold limited_read_list, bind.
    destruct (_ensure_min_time_between_queries (s, w)) as [[[] | e] s1];
      [| reflexivity].
    destruct (self id s1) as [[u | e] s2]; [| reflexivity].
    destruct (lift (modbus.read_input_registers_list address 3 u) s2)
      as [[l | e] s3]; reflexivity. }
  apply bind_Returned in Hs as (l & [s1 w1] & Hr & Hk).
  unfold ret in Hk. inversion Hk; subst; clear Hk.
  exists l. split; [reflexivity |].
  apply limited_read_list_returned. exact Hr.
Qed.

(** The other direction: when the limiter lets the caller through and the
    bus answers, the accessor returns what it makes of the answer. *)
Lemma scalar_accessor_returns {A} address (k : float -> A) s w s1 w1 v :
  _ensure_min_time_between_queries (s, w) = (Returned tt, (s1, w1)) ->
  input_float32 (env w) (reads_issued w) address (id s) = Some v ->
  exists w',
    (_ensure_min_time_between_queries ;;
     unit_id <- self id ;;
     x <- lift (modbus.read_input_registers address unit_id) ;;
     ret (k x)) (s, w) = (Returned (k v), (s1, w')).
Proof.
  intros He Hv.
  erewrite bind_step by exact He.
  apply ensure_returned in He as (-> & Henv & Hn & _).
  unfold self, lift, modbus.read_input_registers, modbus.transact, bind,
    gets, modify, ret, raise, log, next_read, advance; simpl.
  rewrite Henv, Hn, Hv. eexists. reflexivity.
Qed.

Lemma list_accessor_returns {A} address (k : list number -> A) s w s1 w1 fs :
  _ensure_min_time_between_queries (s, w) = (Returned tt, (s1, w1)) ->
  input_float32s (env w) (reads_issued w) address 3 (id s) = Some fs ->
  exists w',
    (_ensure_min_time_between_queries ;;
     unit_id <- self id ;;
     l <- lift (modbus.read_input_registers_list address 3 unit_id) ;;
     ret (k l)) (s, w) = (Returned (k (map PyFloat fs)), (s1, w')).
Proof.
  intros He Hv.
  erewrite bind_step by exact He.
  apply ensure_returned in He as (-> & Henv & Hn & _).
  unfold self, lift, modbus.read_input_registers_list, modbus.transact, bind,
    gets, modify, ret, raise, log, next_read, advance; simpl.
  rewrite Henv, Hn, Hv. eexists. reflexivity.
Qed.

Ltac step H name :=
  let a := fresh "a" in
  let s := fresh "s" in
  let w := fresh "w" in
  apply bind_Returned in H as (a & [s w] & name & H).

(** A snapshot of the three-phase meter that was assembled: seven
    rate-limited reads, then the check of the snapshot. *)
Lemma three_phase_snapshot s w cs s' w' :
  Sdm630_72.get_counter_state (s, w) = (Returned cs, (s', w')) ->
  exists tr,
    trace w' = trace w ++ tr ++ [(clock w', EvCheck cs (fault_state s))] /\
    calls tr = three_phase_calls (id s) /\
    last_query s' = ms_of_ns (last (clock_queries tr) 0) /\
    voltages cs <> None /\ power_factors cs <> None.
Proof.
  unfold Sdm630_72.get_counter_state. intros H.
  step H H1. destruct a as [powers power].
  step H H2. step H H3. step H H4. step H H5. step H H6. step H H7.
  apply (list_accessor_returned 0x0C (fun l => (l, sum l))) in H1
    as (l1 & E1 & -> & Henv1 & Hn1 & A1 & tr1 & T1 & C1 & Q1).
  apply (scalar_accessor_returned 0x0048 (fun v => fmul v (float_of_Z 1000)))
    in H2 as (v2 & E2 & -> & Henv2 & Hn2 & A2 & tr2 & T2 & C2 & Q2).
  apply (scalar_accessor_returned 0x004a (fun v => fmul v (float_of_Z 1000)))
    in H3 as (v3 & E3 & -> & Henv3 & Hn3 & A3 & tr3 & T3 & C3 & Q3).
  apply (limited_read_list_returned 0x00) in H4
    as (-> & Henv4 & Hn4 & A4 & tr4 & T4 & C4 & Q4).
  apply (limited_read_list_returned 0x06) in H5
    as (-> & Henv5 & Hn5 & A5 & tr5 & T5 & C5 & Q5).
  apply (limited_read_list_returned 0x1E) in H6
    as (-> & Henv6 & Hn6 & A6 & tr6 & T6 & C6 & Q6).
  apply (scalar_accessor_returned 0x46
           (fun f => if flt (float_of_Z 100) f
                     then fdiv f (float_of_Z 10) else f))
    in H7 as (v7 & E7 & -> & Henv7 & Hn7 & A7 & tr7 & T7 & C7 & Q7).
  revert H.
  unfold get_serial_number, self, lift, hardware_check.check_meter_values,
    bind, gets, modify, ret, log; simpl.
  intros H. inversion H; subst; clear H; simpl.
  exists (tr1 ++ tr2 ++ tr3 ++ tr4 ++ tr5 ++ tr6 ++ tr7).
  repeat split; try discriminate.
  - rewrite T7, T6, T5, T4, T3, T2, T1.
    repeat rewrite <- app_assoc. reflexivity.
  - repeat rewrite calls_app.
    rewrite C1, C2, C3, C4, C5, C6, C7. reflexivity.
  - repeat rewrite clock_queries_app.
    rewrite Q1, Q2, Q3, Q4, Q5, Q6, Q7. reflexivity.
Qed.

(** The same for the single-phase meter: five reads, and a snapshot built
    without [voltages] and [power_factors]. *)
Lemma single_phase_snapshot s w cs s' w' :
  Sdm120.get_counter_state (s, w) = (Returned cs, (s', w')) ->
  exists tr,
    trace w' = trace w ++ tr ++ [(clock w', EvCheck cs (fault_state s))] /\
    calls tr = single_phase_calls (id s) /\
    last_query s' = ms_of_ns (last (clock_queries tr) 0) /\
    voltages cs = None /\ power_factors cs = None.
Proof.
  unfold Sdm120.get_counter_state. intros H.
  step H H1. destruct a as [powers power].
  step H H2. step H H3. step H H4. step H H5.
  apply (scalar_accessor_returned 0x0C
           (fun p => ([PyFloat p; PyInt 0; PyInt 0], PyFloat p))) in H1
    as (v1 & E1 & -> & Henv1 & Hn1 & A1 & tr1 & T1 & C1 & Q1).
  apply (scalar_accessor_returned 0x0048 (fun v => fmul v (float_of_Z 1000)))
    in H2 as (v2 & E2 & -> & Henv2 & Hn2 & A2 & tr2 & T2 & C2 & Q2).
  apply (scalar_accessor_returned 0x004a (fun v => fmul v (float_of_Z 1000)))
    in H3 as (v3 & E3 & -> & Henv3 & Hn3 & A3 & tr3 & T3 & C3 & Q3).
  apply (scalar_accessor_returned 0x06
           (fun v => [PyFloat v; PyFloat f0_0; PyFloat f0_0])) in H4
    as (v4 & E4 & -> & Henv4 & Hn4 & A4 & tr4 & T4 & C4 & Q4).
  apply (scalar_accessor_returned 0x46
           (fun f => if flt (float_of_Z 100) f
                     then fdiv f (float_of_Z 10) else f))
    in H5 as (v5 & E5 & -> & Henv5 & Hn5 & A5 & tr5 & T5 & C5 & Q5).
  revert H.
  unfold get_serial_number, self, lift, hardware_check.check_meter_values,
    bind, gets, modify, ret, log; simpl.
  intros H. inversion H; subst; clear H; simpl.
  exists (tr1 ++ tr2 ++ tr3 ++ tr4 ++ tr5).
  repeat split.
  - rewrite T5, T4, T3, T2, T1.
    repeat rewrite <- app_assoc. reflexivity.
  - repeat rewrite calls_app.
    rewrite C1, C2, C3, C4, C5. reflexivity.
  - repeat rewrite clock_queries_app.
    rewrite Q1, Q2, Q3, Q4, Q5. reflexivity.
Qed.
(** A pass of the limiter that raises has read the clock and nothing else:
    it is the sleep that was refused. *)
Lemma ensure_raised s w e s' w' :
  _ensure_min_time_between_queries (s, w) = (Raised e, (s', w')) ->
  exists tr, trace w' = trace w ++ tr /\ calls tr = [EvTimeNs].
Proof.
  unfold _ensure_min_time_between_queries, _get_time_ms, time.time_ns,
    self, assign, lift, bind, gets, modify, ret, log; simpl.
  destruct (flt _ _); [| discriminate].
  unfold time.sleep, bind, log, modify, next_sleep, advance, gets, raise;
    simpl.
  destruct (time.sleep_length _); simpl; intros H; [discriminate H |].
  inversion H; subst; clear H; simpl.
  eexists. split; [rewrite <- app_assoc |]; reflexivity.
Qed.

(** An accessor that raises has issued its read, or not even that. *)
Lemma scalar_accessor_raised {A} address (k : float -> A) s w e s' w' :
  (_ensure_min_time_between_queries ;;
   unit_id <- self id ;;
   v <- lift (modbus.read_input_registers address unit_id) ;;
   ret (k v)) (s, w) = (Raised e, (s', w')) ->
  exists tr, trace w' = trace w ++ tr /\
    (calls tr = [EvTimeNs] \/
     calls tr = [EvTimeNs; EvReadInput address (One FLOAT_32) (id s)]).
Proof.
  intros H. apply bind_Raised in H as [H | ([] & [s1 w1] & He & H)].
  - apply ensure_raised in H as (tr & T & C). eauto.
  - apply ensure_returned in He as (-> & Henv & Hn & tr & Htr & Hc & Hq).
    revert H.
    unfold self, lift, modbus.read_input_registers, modbus.transact, bind,
      gets, modify, ret, raise, log, next_read, advance; simpl.
    destruct (input_float32 _ _ _ _); intros H; [discriminate H |].
    inversion H; subst; clear H; simpl.
    eexists. split.
    + rewrite Htr, <- app_assoc. reflexivity.
    + right. rewrite calls_app, Hc. reflexivity.
Qed.

Lemma list_accessor_raised {A} address (k : list number -> A) s w e s' w' :
  (_ensure_min_time_between_queries ;;
   unit_id <- self id ;;
   l <- lift (modbus.read_input_registers_list address 3 unit_id) ;;
   ret (k l)) (s, w) = (Raised e, (s', w')) ->
  exists tr, trace w' = trace w ++ tr /\
    (calls tr = [EvTimeNs] \/
     calls tr = [EvTimeNs; EvReadInput address f32x3 (id s)]).
Proof.
  intros H. apply bind_Raised in H as [H | ([] & [s1 w1] & He & H)].
  - apply ensure_raised in H as (tr & T & C). eauto.
  - apply ensure_returned in He as (-> & Henv & Hn & tr & Htr & Hc & Hq).
    revert H.
    unfold self, lift, modbus.read_input_registers_list, modbus.transact, bind,
      gets, modify, ret, raise, log, next_read, advance; simpl.
    destruct (input_float32s _ _ _ _ _); intros H; [discriminate H |].
    inversion H; subst; clear H; simpl.
    eexists. split.
    + rewrite Htr, <- app_assoc. reflexivity.
    + right. rewrite calls_app, Hc. reflexivity.
Qed.

Lemma limited_read_list_raised address s w e s' w' :
  limited_read_list address (s, w) = (Raised e, (s', w')) ->
  exists tr, trace w' = trace w ++ tr /\
    (calls tr = [EvTimeNs] \/
     calls tr = [EvTimeNs; EvReadInput address f32x3 (id s)]).
Proof.
  intros H. apply (list_accessor_raised address (fun l => l) s w e s' w').
  rewrite <- H. unfold limited_read_list, bind.
  destruct (_ensure_min_time_between_queries (s, w)) as [[[] | e0] s1];
    [| reflexivity].
  destruct (self id s1) as [[u | e0] s2]; [| reflexivity].
  destruct (lift (modbus.read_input_registers_list address 3 u) s2)
    as [[l | e0] [s3 w3]]; reflexivity.
Qed.

(** The calls of a snapshot, stage by stage. *)
Lemma so_far_returned {w : World} {P req answer s1 w1 s2 w2} :
  (exists tr, trace w1 = trace w ++ tr /\ calls tr = P) ->
  limited req answer s1 w1 s2 w2 ->
  exists tr, trace w2 = trace w ++ tr /\ calls tr = P ++ [EvTimeNs; req].
Proof.
  intros (tr & T & C) (_ & _ & _ & _ & tr' & T' & C' & _).
  exists (tr ++ tr'). split.
  - rewrite T', T, app_assoc. reflexivity.
  - rewrite calls_app, C, C'. reflexivity.
Qed.

Lemma so_far_raised {w : World} {P req w1 w2} :
  (exists tr, trace w1 = trace w ++ tr /\ calls tr = P) ->
  (exists tr, trace w2 = trace w1 ++ tr /\
     (calls tr = [EvTimeNs] \/ calls tr = [EvTimeNs; req])) ->
  exists tr, trace w2 = trace w ++ tr /\
    (calls tr = P ++ [EvTimeNs] \/ calls tr = P ++ [EvTimeNs; req]).
Proof.
  intros (tr & T & C) (tr' & T' & C').
  exists (tr ++ tr'). split.
  - rewrite T', T, app_assoc. reflexivity.
  - rewrite calls_app, C. destruct C' as [-> | ->]; auto.
Qed.

Ltac step_raised H name :=
  let a := fresh "a" in
  let s := fresh "s" in
  let w := fresh "w" in
  apply bind_Raised in H as [H | (a & [s w] & name & H)].

Ltac conclude Acc H :=
  let tr := fresh "tr" in
  let T := fresh "T" in
  let C := fresh "C" in
  destruct (so_far_raised Acc H) as (tr & T & [C | C]);
  exists tr; eexists; (split; [exact T | rewrite C; reflexivity]).

Ltac scalar_stage H Acc address k Acc' :=
  let a := fresh "a" in
  let s := fresh "s" in
  let w := fresh "w" in
  let R := fresh "R" in
  let L := fresh "L" in
  apply bind_Raised in H as [H | (a & [s w] & R & H)];
  [ apply (scalar_accessor_raised address k) in H; conclude Acc H |];
  apply (scalar_accessor_returned address k) in R as (? & ? & L);
  pose proof (so_far_returned Acc L) as Acc'; destruct L as (-> & _).

Ltac list_stage H Acc address k Acc' :=
  let a := fresh "a" in
  let s := fresh "s" in
  let w := fresh "w" in
  let R := fresh "R" in
  let L := fresh "L" in
  apply bind_Raised in H as [H | (a & [s w] & R & H)];
  [ apply (list_accessor_raised address k) in H; conclude Acc H |];
  apply (list_accessor_returned address k) in R as (? & ? & L);
  pose proof (so_far_returned Acc L) as Acc'; destruct L as (-> & _).

Ltac plain_list_stage H Acc address Acc' :=
  let a := fresh "a" in
  let s := fresh "s" in
  let w := fresh "w" in
  let R := fresh "R" in
  let L := fresh "L" in
  apply bind_Raised in H as [H | (a & [s w] & R & H)];
  [ apply (limited_read_list_raised address) in H; conclude Acc H |];
  apply (limited_read_list_returned address) in R as L;
  pose proof (so_far_returned Acc L) as Acc'; destruct L as (-> & _).

(** A snapshot that fails has made the calls of a snapshot up to the one
    that raised, and no check. *)
Lemma three_phase_snapshot_raised s w e s' w' :
  Sdm630_72.get_counter_state (s, w) = (Raised e, (s', w')) ->
  exists tr rest,
    trace w' = trace w ++ tr /\ three_phase_calls (id s) = calls tr ++ rest.
Proof.
  unfold Sdm630_72.get_counter_state. intros H.
  assert (A0 : exists tr, trace w = trace w ++ tr /\ calls tr = []).
  { exists []. split; [symmetry; apply app_nil_r | reflexivity]. }
  list_stage H A0 0x0C (fun l : list number => (l, sum l)) A1.
  destruct a as [powers power].
  scalar_stage H A1 0x0048 (fun v => fmul v (float_of_Z 1000)) A2.
  scalar_stage H A2 0x004a (fun v => fmul v (float_of_Z 1000)) A3.
  plain_list_stage H A3 0x00 A4.
  plain_list_stage H A4 0x06 A5.
  plain_list_stage H A5 0x1E A6.
  scalar_stage H A6 0x46
    (fun f => if flt (float_of_Z 100) f then fdiv f (float_of_Z 10) else f) A7.
  discriminate H.
Qed.

Lemma single_phase_snapshot_raised s w e s' w' :
  Sdm120.get_counter_state (s, w) = (Raised e, (s', w')) ->
  exists tr rest,
    trace w' = trace w ++ tr /\ single_phase_calls (id s) = calls tr ++ rest.
Proof.
  unfold Sdm120.get_counter_state. intros H.
  assert (A0 : exists tr, trace w = trace w ++ tr /\ calls tr = []).
  { exists []. split; [symmetry; apply app_nil_r | reflexivity]. }
  scalar_stage H A0 0x0C
    (fun p => ([PyFloat p; PyInt 0; PyInt 0], PyFloat p)) A1.
  destruct a as [powers power].
  scalar_stage H A1 0x0048 (fun v => fmul v (float_of_Z 1000)) A2.
  scalar_stage H A2 0x004a (fun v => fmul v (float_of_Z 1000)) A3.
  scalar_stage H A3 0x06
    (fun v => [PyFloat v; PyFloat f0_0; PyFloat f0_0]) A4.
  scalar_stage H A4 0x46
    (fun f => if flt (float_of_Z 100) f then fdiv f (float_of_Z 10) else f) A5.
  discriminate H.
Qed.

Lemma failed_snapshot_unchecked v s w e s' w' :
  get_counter_state_of v (s, w) = (Raised e, (s', w')) ->
  exists tr rest,
    trace w' = trace w ++ tr /\
    checks tr = [] /\
    register_reads tr ++ rest =
      filter is_register_read
        match v with
        | ThreePhase => three_phase_calls (id s)
        | SinglePhase => single_phase_calls (id s)
        end.
Proof.
  intros H.
  assert (Hc : exists tr rest,
             trace w' = trace w ++ tr /\
             match v with
             | ThreePhase => three_phase_calls (id s)
             | SinglePhase => single_phase_calls (id s)
             end = calls tr ++ rest).
  { destruct v; simpl in H.
    - apply three_phase_snapshot_raised in H. exact H.
    - apply single_phase_snapshot_raised in H. exact H. }
  destruct Hc as (tr & rest & T & C).
  exists tr, (filter is_register_read rest). split; [exact T |]. split.
  - assert (Hn : filter is_check (calls tr ++ rest) = []).
    { rewrite <- C. destruct v; reflexivity. }
    rewrite filter_app in Hn. apply app_eq_nil in Hn as [Hn _].
    rewrite checks_calls. exact Hn.
  - rewrite C, filter_app, register_reads_calls. reflexivity.
Qed.
End SdmFacts.

(** ** The drivers: what the specification claims *)

Import Sdm SdmSpec SdmFacts.

(** C1.  The code does not keep the interval.  On the bench a three-phase
    meter is constructed and asked for a snapshot at once; its seven reads
    are issued 100, 120, 220, 240, 340, 360 and 460 ms after power-on, so
    that every other gap is 20 ms, the latency of one read, and not the
    100 ms that the limiter is there to keep. *)
Theorem snapshot_reads_closer_than_interval :
  fst (bench_snapshot ThreePhase) = Returned (bench_counter_state ThreePhase) /\
  WAIT_MS_BETWEEN_QUERIES (bench_meter ThreePhase) = 100 /\
  map (fun te => fst te - epoch)
      (input_reads (trace (snapshot_world ThreePhase))) =
    [100 * ms; 120 * ms; 220 * ms; 240 * ms; 340 * ms; 360 * ms; 460 * ms] /\
  spaced (100 * ms)
         (map fst (input_reads (trace (snapshot_world ThreePhase)))) = false.
Proof. vm_compute. repeat split; reflexivity. Qed.

(** C2.  The limiter does not leave in [last_query] the time at which its
    wait completed.  On the bench it is entered 20 ms after the meter was
    constructed: it reads the clock, sleeps for the remaining 80 ms and
    returns at 100 ms, with [last_query] at the 20 ms it read on entry. *)
Theorem limiter_keeps_entry_time :
  fst (bench_limiter ThreePhase) = Returned tt /\
  last_query (bench_meter ThreePhase) = ms_of_ns epoch /\
  clock (bench_world ThreePhase) = epoch + 20 * ms /\
  trace (limiter_world ThreePhase) =
    trace (bench_world ThreePhase) ++
      [(epoch + 20 * ms, EvTimeNs);
       (epoch + 20 * ms, EvSleep (fdiv (float_of_Z 80) f1e3))] /\
  clock (limiter_world ThreePhase) = epoch + 100 * ms /\
  last_query (limiter_meter ThreePhase) = ms_of_ns (epoch + 20 * ms) /\
  last_query (limiter_meter ThreePhase)
    <> ms_of_ns (clock (limiter_world ThreePhase)).
Proof. vm_compute. repeat split; try reflexivity. discriminate. Qed.

(** C4.  A call of the three-phase [get_counter_state] that assembles its
    snapshot issues exactly seven register reads, all of them input-register
    reads, in the order power, imported, exported, voltages, currents, power
    factors, frequency; each read comes right after a pass of the rate
    limiter, which reads the clock, and on return [last_query] holds the
    time read by the last of these passes. *)
Theorem three_phase_snapshot_reads s w cs s' w' :
  Sdm630_72.get_counter_state (s, w) = (Returned cs, (s', w')) ->
  exists tr,
    trace w' = trace w ++ tr /\
    register_reads tr =
      [EvReadInput 0x0C f32x3 (id s);
       EvReadInput 0x0048 (One FLOAT_32) (id s);
       EvReadInput 0x004a (One FLOAT_32) (id s);
       EvReadInput 0x00 f32x3 (id s);
       EvReadInput 0x06 f32x3 (id s);
       EvReadInput 0x1E f32x3 (id s);
       EvReadInput 0x46 (One FLOAT_32) (id s)] /\
    calls tr = three_phase_calls (id s) ++ [EvCheck cs (fault_state s)] /\
    last_query s' = ms_of_ns (last (clock_queries tr) 0).
Proof.
  intros H. apply three_phase_snapshot in H as (tr & T & C & Q & _).
  exists (tr ++ [(clock w', EvCheck cs (fault_state s))]).
  repeat split.
  - exact T.
  - rewrite register_reads_calls, calls_app, C. reflexivity.
  - rewrite calls_app, C. reflexivity.
  - rewrite clock_queries_app. simpl. rewrite app_nil_r. exact Q.
Qed.

Lemma three_phase_snapshot_reads_bench :
  Sdm630_72.get_counter_state (bench_meter ThreePhase, bench_world ThreePhase)
    = (Returned (bench_counter_state ThreePhase),
       (snapshot_meter ThreePhase, snapshot_world ThreePhase)) /\
  exists tr,
    trace (snapshot_world ThreePhase) = trace (bench_world ThreePhase) ++ tr /\
    register_reads tr =
      [EvReadInput 0x0C f32x3 (id (bench_meter ThreePhase));
       EvReadInput 0x0048 (One FLOAT_32) (id (bench_meter ThreePhase));
       EvReadInput 0x004a (One FLOAT_32) (id (bench_meter ThreePhase));
       EvReadInput 0x00 f32x3 (id (bench_meter ThreePhase));
       EvReadInput 0x06 f32x3 (id (bench_meter ThreePhase));
       EvReadInput 0x1E f32x3 (id (bench_meter ThreePhase));
       EvReadInput 0x46 (One FLOAT_32) (id (bench_meter ThreePhase))] /\
    calls tr =
      three_phase_calls (id (bench_meter ThreePhase))
        ++ [EvCheck (bench_counter_state ThreePhase)
                    (fault_state (bench_meter ThreePhase))] /\
    last_query (snapshot_meter ThreePhase)
      = ms_of_ns (last (clock_queries tr) 0).
Proof.
  assert (H : Sdm630_72.get_counter_state
                (bench_meter ThreePhase, bench_world ThreePhase)
              = (Returned (bench_counter_state ThreePhase),
                 (snapshot_meter ThreePhase, snapshot_world ThreePhase)))
    by (vm_compute; reflexivity).
  split; [exact H |].
  exact (three_phase_snapshot_reads _ _ _ _ _ H).
Defined.

(** C10.  A call of the single-phase [get_counter_state] that assembles its
    snapshot issues exactly five register reads, in the order power,
    imported, exported, currents, frequency; it reads neither the voltage
    register (0x00) nor the power-factor register (0x1E), and the snapshot
    is constructed without [voltages] and without [power_factors]. *)
Theorem single_phase_snapshot_reads s w cs s' w' :
  Sdm120.get_counter_state (s, w) = (Returned cs, (s', w')) ->
  exists tr,
    trace w' = trace w ++ tr /\
    register_reads tr =
      [EvReadInput 0x0C (One FLOAT_32) (id s);
       EvReadInput 0x0048 (One FLOAT_32) (id s);
       EvReadInput 0x004a (One FLOAT_32) (id s);
       EvReadInput 0x06 (One FLOAT_32) (id s);
       EvReadInput 0x46 (One FLOAT_32) (id s)] /\
    (forall types unit_id,
        ~ In (EvReadInput 0x00 types unit_id) (map snd tr) /\
        ~ In (EvReadInput 0x1E types unit_id) (map snd tr)) /\
    voltages cs = None /\ power_factors cs = None.
Proof.
  intros H. apply single_phase_snapshot in H as (tr & T & C & Q & V & P).
  set (tr' := tr ++ [(clock w', EvCheck cs (fault_state s))]).
  assert (R : register_reads tr' =
      [EvReadInput 0x0C (One FLOAT_32) (id s);
       EvReadInput 0x0048 (One FLOAT_32) (id s);
       EvReadInput 0x004a (One FLOAT_32) (id s);
       EvReadInput 0x06 (One FLOAT_32) (id s);
       EvReadInput 0x46 (One FLOAT_32) (id s)]).
  { unfold tr'. rewrite register_reads_calls, calls_app, C. reflexivity. }
  exists tr'.
  split; [exact T |]. split; [exact R |]. split; [| split; assumption].
  assert (Hin : forall a types unit_id,
             In (EvReadInput a types unit_id) (map snd tr') ->
             a = 0x0C \/ a = 0x0048 \/ a = 0x004a \/ a = 0x06 \/ a = 0x46).
  { intros a ty u Hi.
    assert (Hr : In (EvReadInput a ty u) (register_reads tr')).
    { unfold register_reads. apply filter_In. split; [exact Hi | reflexivity]. }
    rewrite R in Hr. simpl in Hr.
    repeat (destruct Hr as [Hr | Hr]; [inversion Hr; auto 6 |]).
    contradiction. }
  intros ty u. split; intros Hi; apply Hin in Hi; lia.
Qed.

Lemma single_phase_snapshot_reads_bench :
  Sdm120.get_counter_state (bench_meter SinglePhase, bench_world SinglePhase)
    = (Returned (bench_counter_state SinglePhase),
       (snapshot_meter SinglePhase, snapshot_world SinglePhase)) /\
  exists tr,
    trace (snapshot_world SinglePhase) = trace (bench_world SinglePhase) ++ tr /\
    register_reads tr =
      [EvReadInput 0x0C (One FLOAT_32) (id (bench_meter SinglePhase));
       EvReadInput 0x0048 (One FLOAT_32) (id (bench_meter SinglePhase));
       EvReadInput 0x004a (One FLOAT_32) (id (bench_meter SinglePhase));
       EvReadInput 0x06 (One FLOAT_32) (id (bench_meter SinglePhase));
       EvReadInput 0x46 (One FLOAT_32) (id (bench_meter SinglePhase))] /\
    (forall types unit_id,
        ~ In (EvReadInput 0x00 types unit_id) (map snd tr) /\
        ~ In (EvReadInput 0x1E types unit_id) (map snd tr)) /\
    voltages (bench_counter_state SinglePhase) = None /\
    power_factors (bench_counter_state SinglePhase) = None.
Proof.
  assert (H : Sdm120.get_counter_state
                (bench_meter SinglePhase, bench_world SinglePhase)
              = (Returned (bench_counter_state SinglePhase),
                 (snapshot_meter SinglePhase, snapshot_world SinglePhase)))
    by (vm_compute; reflexivity).
  split; [exact H |].
  exact (single_phase_snapshot_reads _ _ _ _ _ H).
Defined.

(** C9.  In either variant a snapshot that was assembled has been handed to
    [check_meter_values] exactly once, together with the fault state of the
    component: the call is the last thing [get_counter_state] does before
    it returns the snapshot, after all its register reads (seven or
    five), and none of the calls before it is a check. *)
Theorem check_once_after_reads v s w cs s' w' :
  get_counter_state_of v (s, w) = (Returned cs, (s', w')) ->
  exists tr t,
    trace w' = trace w ++ tr ++ [(t, EvCheck cs (fault_state s))] /\
    checks tr = [] /\
    checks (tr ++ [(t, EvCheck cs (fault_state s))])
      = [EvCheck cs (fault_state s)] /\
    List.length (register_reads tr)
      = match v with ThreePhase => 7%nat | SinglePhase => 5%nat end.
Proof.
  intros H.
  assert (Hc : exists tr,
             trace w' = trace w ++ tr
                          ++ [(clock w', EvCheck cs (fault_state s))] /\
             calls tr = match v with
                        | ThreePhase => three_phase_calls (id s)
                        | SinglePhase => single_phase_calls (id s)
                        end).
  { destruct v; simpl in H.
    - apply three_phase_snapshot in H as (tr & T & C & _). eauto.
    - apply single_phase_snapshot in H as (tr & T & C & _). eauto. }
  destruct Hc as (tr & T & C).
  exists tr, (clock w'). split; [exact T |].
  assert (Hn : checks tr = []).
  { rewrite checks_calls, C. destruct v; reflexivity. }
  repeat split.
  - exact Hn.
  - unfold checks in *. rewrite map_app, filter_app, Hn. reflexivity.
  - rewrite register_reads_calls, C. destruct v; reflexivity.
Qed.

Lemma check_once_after_reads_bench :
  get_counter_state_of SinglePhase
      (bench_meter SinglePhase, bench_world SinglePhase)
    = (Returned (bench_counter_state SinglePhase),
       (snapshot_meter SinglePhase, snapshot_world SinglePhase)) /\
  exists tr t,
    trace (snapshot_world SinglePhase) =
      trace (bench_world SinglePhase) ++ tr
        ++ [(t, EvCheck (bench_counter_state SinglePhase)
                        (fault_state (bench_meter SinglePhase)))] /\
    checks tr = [] /\
    checks (tr ++ [(t, EvCheck (bench_counter_state SinglePhase)
                               (fault_state (bench_meter SinglePhase)))])
      = [EvCheck (bench_counter_state SinglePhase)
                 (fault_state (bench_meter SinglePhase))] /\
    List.length (register_reads tr) = 5%nat.
Proof.
  assert (H : get_counter_state_of SinglePhase
                (bench_meter SinglePhase, bench_world SinglePhase)
              = (Returned (bench_counter_state SinglePhase),
                 (snapshot_meter SinglePhase, snapshot_world SinglePhase)))
    by (vm_compute; reflexivity).
  split; [exact H |].
  exact (check_once_after_reads SinglePhase _ _ _ _ _ H).
Defined.

(** C5.  Whatever raw value the frequency register read returns,
    [get_frequency] returns a tenth of it when it is above 100 and the
    value itself otherwise; a raw 100 comes back unchanged. *)
Theorem get_frequency_scaling s w s1 w1 raw :
  _ensure_min_time_between_queries (s, w) = (Returned tt, (s1, w1)) ->
  input_float32 (env w) (reads_issued w) 0x46 (id s) = Some raw ->
  exists r w',
    get_frequency (s, w) = (Returned r, (s1, w')) /\
    (flt (float_of_Z 100) raw = true -> r = fdiv raw (float_of_Z 10)) /\
    (flt (float_of_Z 100) raw = false -> r = raw) /\
    (raw = float_of_Z 100 -> r = raw).
Proof.
  intros He Hv.
  destruct (scalar_accessor_returns 0x46
              (fun f => if flt (float_of_Z 100) f
                        then fdiv f (float_of_Z 10) else f) _ _ _ _ _ He Hv)
    as (w' & Hr).
  eexists. exists w'. split; [exact Hr |].
  repeat split; intros ->; reflexivity.
Qed.

Lemma get_frequency_scaling_bench :
  (_ensure_min_time_between_queries
     (bench_meter SinglePhase, bench_world SinglePhase)
   = (Returned tt, (limiter_meter SinglePhase, limiter_world SinglePhase)) /\
   input_float32 (env (bench_world SinglePhase))
     (reads_issued (bench_world SinglePhase)) 0x46
     (id (bench_meter SinglePhase)) = Some (float_of_Z 50)) /\
  exists r w',
    get_frequency (bench_meter SinglePhase, bench_world SinglePhase)
      = (Returned r, (limiter_meter SinglePhase, w')) /\
    (flt (float_of_Z 100) (float_of_Z 50) = true ->
     r = fdiv (float_of_Z 50) (float_of_Z 10)) /\
    (flt (float_of_Z 100) (float_of_Z 50) = false -> r = float_of_Z 50) /\
    (float_of_Z 50 = float_of_Z 100 -> r = float_of_Z 50).
Proof.
  assert (He : _ensure_min_time_between_queries
                 (bench_meter SinglePhase, bench_world SinglePhase)
               = (Returned tt,
                  (limiter_meter SinglePhase, limiter_world SinglePhase)))
    by (vm_compute; reflexivity).
  assert (Hv : input_float32 (env (bench_world SinglePhase))
                 (reads_issued (bench_world SinglePhase)) 0x46
                 (id (bench_meter SinglePhase)) = Some (float_of_Z 50))
    by (vm_compute; reflexivity).
  split; [split; [exact He | exact Hv] |].
  exact (get_frequency_scaling _ _ _ _ _ He Hv).
Defined.

(** The table of the specification: 49.9 and 50.1 stay, 499 and 501 are
    divided by ten. *)
Example get_frequency_table :
  frequency_of (fdiv (float_of_Z 499) (float_of_Z 10))
    = Returned (fdiv (float_of_Z 499) (float_of_Z 10)) /\
  frequency_of (fdiv (float_of_Z 501) (float_of_Z 10))
    = Returned (fdiv (float_of_Z 501) (float_of_Z 10)) /\
  frequency_of (float_of_Z 499)
    = Returned (fdiv (float_of_Z 499) (float_of_Z 10)) /\
  frequency_of (float_of_Z 501)
    = Returned (fdiv (float_of_Z 501) (float_of_Z 10)) /\
  frequency_of (float_of_Z 100) = Returned (float_of_Z 100).
Proof. vm_compute. repeat split; reflexivity. Qed.

(** Adding to the float zero from which [sum] starts changes nothing but
    the sign of a negative zero. *)
Lemma fadd_zero_l a :
  fadd f0_0 a = match a with S754_zero _ => f0_0 | _ => a end.
Proof. destruct a as [[] | [] | | [] m e]; reflexivity. Qed.

(** C6.  For every list of three phase powers that the register read
    returns, the three-phase [get_power] returns the list together with
    [sum] of the list, which is the float sum of the three elements, added
    from left to right. *)
Theorem three_phase_power_sum s w s1 w1 a b c :
  _ensure_min_time_between_queries (s, w) = (Returned tt, (s1, w1)) ->
  input_float32s (env w) (reads_issued w) 0x0C 3 (id s) = Some [a; b; c] ->
  exists powers w',
    Sdm630_72.get_power (s, w) = (Returned (powers, sum powers), (s1, w')) /\
    powers = [PyFloat a; PyFloat b; PyFloat c] /\
    sum powers = PyFloat (fadd (fadd (fadd f0_0 a) b) c).
Proof.
  intros He Hv.
  destruct (list_accessor_returns 0x0C (fun l => (l, sum l)) _ _ _ _ _ He Hv)
    as (w' & Hr).
  eexists. exists w'. split; [exact Hr |]. split; reflexivity.
Qed.

Lemma three_phase_power_sum_bench :
  (_ensure_min_time_between_queries
     (bench_meter ThreePhase, bench_world ThreePhase)
   = (Returned tt, (limiter_meter ThreePhase, limiter_world ThreePhase)) /\
   input_float32s (env (bench_world ThreePhase))
     (reads_issued (bench_world ThreePhase)) 0x0C 3
     (id (bench_meter ThreePhase))
   = Some [float_of_Z 100; float_of_Z 150; float_of_Z 120]) /\
  exists powers w',
    Sdm630_72.get_power (bench_meter ThreePhase, bench_world ThreePhase)
      = (Returned (powers, sum powers), (limiter_meter ThreePhase, w')) /\
    powers = [PyFloat (float_of_Z 100); PyFloat (float_of_Z 150);
              PyFloat (float_of_Z 120)] /\
    sum powers =
      PyFloat (fadd (fadd (fadd f0_0 (float_of_Z 100)) (float_of_Z 150))
                    (float_of_Z 120)).
Proof.
  assert (He : _ensure_min_time_between_queries
                 (bench_meter ThreePhase, bench_world ThreePhase)
               = (Returned tt,
                  (limiter_meter ThreePhase, limiter_world ThreePhase)))
    by (vm_compute; reflexivity).
  assert (Hv : input_float32s (env (bench_world ThreePhase))
                 (reads_issued (bench_world ThreePhase)) 0x0C 3
                 (id (bench_meter ThreePhase))
               = Some [float_of_Z 100; float_of_Z 150; float_of_Z 120])
    by (vm_compute; reflexivity).
  split; [split; [exact He | exact Hv] |].
  exact (three_phase_power_sum _ _ _ _ _ _ _ He Hv).
Defined.

(** The example of the specification: 100.0, 150.0 and 120.0 add up to
    370.0. *)
Example sum_of_bench_powers :
  sum [PyFloat (float_of_Z 100); PyFloat (float_of_Z 150);
       PyFloat (float_of_Z 120)] = PyFloat (float_of_Z 370).
Proof. vm_compute. reflexivity. Qed.

(** C7.  For every scalar that the register read returns, each of the four
    vector-valued accessors of the single-phase meter returns a list of
    exactly three elements, the second and the third of which are equal to
    0.0 ([get_power] pads with the int 0, which is [== 0.0]). *)
Theorem single_phase_vectors s w s1 w1 p c v f :
  _ensure_min_time_between_queries (s, w) = (Returned tt, (s1, w1)) ->
  input_float32 (env w) (reads_issued w) 0x0C (id s) = Some p ->
  input_float32 (env w) (reads_issued w) 0x06 (id s) = Some c ->
  input_float32 (env w) (reads_issued w) 0x00 (id s) = Some v ->
  input_float32 (env w) (reads_issued w) 0x1E (id s) = Some f ->
  (exists l w', Sdm120.get_power (s, w) = (Returned (l, PyFloat p), (s1, w'))
                /\ List.length l = 3%nat /\ zero_padded l = true) /\
  (exists l w', Sdm120.get_currents (s, w) = (Returned l, (s1, w'))
                /\ List.length l = 3%nat /\ zero_padded l = true) /\
  (exists l w', Sdm120.get_voltages (s, w) = (Returned l, (s1, w'))
                /\ List.length l = 3%nat /\ zero_padded l = true) /\
  (exists l w', Sdm120.get_power_factors (s, w) = (Returned l, (s1, w'))
                /\ List.length l = 3%nat /\ zero_padded l = true).
Proof.
  intros He Hp Hc Hv Hf.
  destruct (scalar_accessor_returns 0x0C
              (fun x => ([PyFloat x; PyInt 0; PyInt 0], PyFloat x))
              _ _ _ _ _ He Hp) as (wp & Rp).
  destruct (scalar_accessor_returns 0x06
              (fun x => [PyFloat x; PyFloat f0_0; PyFloat f0_0])
              _ _ _ _ _ He Hc) as (wc & Rc).
  destruct (scalar_accessor_returns 0x00
              (fun x => [PyFloat x; PyFloat f0_0; PyFloat f0_0])
              _ _ _ _ _ He Hv) as (wv & Rv).
  destruct (scalar_accessor_returns 0x1E
              (fun x => [PyFloat x; PyFloat f0_0; PyFloat f0_0])
              _ _ _ _ _ He Hf) as (wf & Rf).
  repeat split.
  - eexists. exists wp. split; [exact Rp |]. split; reflexivity.
  - eexists. exists wc. split; [exact Rc |]. split; reflexivity.
  - eexists. exists wv. split; [exact Rv |]. split; reflexivity.
  - eexists. exists wf. split; [exact Rf |]. split; reflexivity.
Qed.

Lemma single_phase_vectors_bench :
  (_ensure_min_time_between_queries
     (bench_meter SinglePhase, bench_world SinglePhase)
   = (Returned tt, (limiter_meter SinglePhase, limiter_world SinglePhase)) /\
   forall address,
     input_float32 (env (bench_world SinglePhase))
       (reads_issued (bench_world SinglePhase)) address
       (id (bench_meter SinglePhase)) = Some (float_of_Z 50)) /\
  (exists l w',
      Sdm120.get_power (bench_meter SinglePhase, bench_world SinglePhase)
        = (Returned (l, PyFloat (float_of_Z 50)),
           (limiter_meter SinglePhase, w'))
      /\ List.length l = 3%nat /\ zero_padded l = true) /\
  (exists l w',
      Sdm120.get_currents (bench_meter SinglePhase, bench_world SinglePhase)
        = (Returned l, (limiter_meter SinglePhase, w'))
      /\ List.length l = 3%nat /\ zero_padded l = true) /\
  (exists l w',
      Sdm120.get_voltages (bench_meter SinglePhase, bench_world SinglePhase)
        = (Returned l, (limiter_meter SinglePhase, w'))
      /\ List.length l = 3%nat /\ zero_padded l = true) /\
  (exists l w',
      Sdm120.get_power_factors
          (bench_meter SinglePhase, bench_world SinglePhase)
        = (Returned l, (limiter_meter SinglePhase, w'))
      /\ List.length l = 3%nat /\ zero_padded l = true).
Proof.
  assert (He : _ensure_min_time_between_queries
                 (bench_meter SinglePhase, bench_world SinglePhase)
               = (Returned tt,
                  (limiter_meter SinglePhase, limiter_world SinglePhase)))
    by (vm_compute; reflexivity).
  assert (Hv : forall address,
             input_float32 (env (bench_world SinglePhase))
               (reads_issued (bench_world SinglePhase)) address
               (id (bench_meter SinglePhase)) = Some (float_of_Z 50))
    by (intros address; reflexivity).
  split; [split; [exact He | exact Hv] |].
  exact (single_phase_vectors _ _ _ _ _ _ _ _ He
           (Hv 0x0C) (Hv 0x06) (Hv 0x00) (Hv 0x1E)).
Defined.

(** C8.  Constructing a driver of either variant issues exactly one
    register read, the holding-register read of the serial number at
    0xFC00 as UINT_32, between the opening and the closing of one client
    session, and no input-register read; the serial number is stored in
    the object, and [get_serial_number] returns the stored value and
    leaves the world as it was. *)
Theorem construction_reads_serial_once v modbus_id fs w n :
  holding_uint32 (env w) (reads_issued w) 0xFC00 modbus_id = Some n ->
  exists s w',
    new_of v modbus_id fs w = (Returned s, w') /\
    trace w' = trace w ++
      [(clock w, EvTimeNs); (clock w, EvEnter);
       (clock w, EvReadHolding 0xFC00 (One UINT_32) modbus_id);
       (clock w', EvExit)] /\
    Sdm.serial_number s = str n /\
    forall w2, get_serial_number (s, w2) = (Returned (str n), (s, w2)).
Proof.
  intros Hn.
  destruct v; unfold new_of, Sdm630_72.new, Sdm120.new, construct,
    Sdm630_72.__init__, Sdm120.__init__, Sdm.__init__, _get_time_ms,
    time.time_ns, with_, modbus.enter, modbus.exit,
    modbus.read_holding_registers, modbus.transact, self, assign, lift,
    bind, gets, modify, ret, raise, log, next_read, advance; simpl;
    rewrite Hn; simpl;
    (eexists; eexists; split; [reflexivity |]; simpl;
     split; [rewrite <- !app_assoc; reflexivity |];
     split; [reflexivity |]; intros w2; reflexivity).
Qed.

Lemma construction_reads_serial_once_bench :
  holding_uint32 (env power_on) (reads_issued power_on) 0xFC00 1
    = Some 21034567 /\
  exists s w',
    new_of ThreePhase 1 7%nat power_on = (Returned s, w') /\
    trace w' = trace power_on ++
      [(clock power_on, EvTimeNs); (clock power_on, EvEnter);
       (clock power_on, EvReadHolding 0xFC00 (One UINT_32) 1);
       (clock w', EvExit)] /\
    Sdm.serial_number s = str 21034567 /\
    forall w2, get_serial_number (s, w2) = (Returned (str 21034567), (s, w2)).
Proof.
  assert (Hn : holding_uint32 (env power_on) (reads_issued power_on) 0xFC00 1
               = Some 21034567) by reflexivity.
  split; [exact Hn |].
  exact (construction_reads_serial_once ThreePhase 1 7%nat power_on _ Hn).
Defined.

(** A construction whose read fails has still issued its one read and
    closed its session; the error leaves the constructor. *)
Lemma construction_closes_on_error v modbus_id fs w :
  holding_uint32 (env w) (reads_issued w) 0xFC00 modbus_id = None ->
  exists w',
    new_of v modbus_id fs w = (Raised TransportError, w') /\
    map snd (trace w') = map snd (trace w) ++
      [EvTimeNs; EvEnter; EvReadHolding 0xFC00 (One UINT_32) modbus_id;
       EvExit].
Proof.
  intros Hn.
  destruct v; unfold new_of, Sdm630_72.new, Sdm120.new, construct,
    Sdm630_72.__init__, Sdm120.__init__, Sdm.__init__, _get_time_ms,
    time.time_ns, with_, modbus.enter, modbus.exit,
    modbus.read_holding_registers, modbus.transact, self, assign, lift,
    bind, gets, modify, ret, raise, log, next_read, advance; simpl;
    rewrite Hn; simpl;
    (eexists; split; [reflexivity |]; simpl;
     rewrite <- !app_assoc, map_app; reflexivity).
Qed.

(** ** The device: what the specification claims *)

Module DeviceFacts.
Import component_context device DeviceSpec.

Lemma guarded_update_returns c d :
  guarded_update c d = (Returned tt, after_update c d).
Proof.
  unfold guarded_update, with_, SingleComponentUpdateContext_enter,
    SingleComponentUpdateContext_exit, update, after_update, recorded,
    note, record, bind, modify, ret, raise.
  destruct (update_raises c); reflexivity.
Qed.

Lemma loop_returns components : forall d,
  for_each components guarded_update d =
    (Returned tt, fold_left (fun d c => after_update c d) components d).
Proof.
  induction components as [| c rest IH]; intros d; simpl.
  - reflexivity.
  - unfold bind. rewrite guarded_update_returns. apply IH.
Qed.

Lemma loop_calls components : forall d,
  calls_made (fold_left (fun d c => after_update c d) components d) =
    calls_made d ++ map (fun c => Update (component_id c)) components.
Proof.
  induction components as [| c rest IH]; intros d; simpl.
  - symmetry. apply app_nil_r.
  - rewrite IH. simpl. rewrite <- app_assoc. reflexivity.
Qed.

Lemma loop_untouched components : forall d h,
  ~ In h (map fault_state components) ->
  fault_states (fold_left (fun d c => after_update c d) components d) h =
    fault_states d h.
Proof.
  induction components as [| c rest IH]; intros d h Hh; simpl; [reflexivity |].
  rewrite IH by (intros Hi; apply Hh; right; exact Hi).
  simpl. destruct (Nat.eqb_spec h (fault_state c)) as [-> | _]; [| reflexivity].
  exfalso. apply Hh. left. reflexivity.
Qed.

Lemma loop_recorded components : forall d c,
  NoDup (map fault_state components) ->
  In c components ->
  fault_states (fold_left (fun d c => after_update c d) components d)
    (fault_state c) = recorded c.
Proof.
  induction components as [| c0 rest IH]; intros d c Hnd Hin; simpl.
  - destruct Hin.
  - inversion Hnd as [| x l Hx Hl]; subst.
    destruct Hin as [-> | Hin].
    + rewrite loop_untouched by exact Hx. simpl.
      rewrite Nat.eqb_refl. reflexivity.
    + apply IH; assumption.
Qed.
End DeviceFacts.

Import component_context device DeviceSpec DeviceFacts.

(** C3.  Whatever the components and whichever of their updates raise,
    [update_components] opens the session once, updates every component in
    the order of the list, records against the fault state of each
    component the error of its update, or that there was none, and closes
    the session; no error leaves it, and no fault state but those of the
    components is touched. *)
Theorem update_components_isolates_failures components d cl :
  client d = Some cl ->
  NoDup (map device.fault_state components) ->
  exists d',
    update_components components d = (Returned tt, d') /\
    calls_made d' =
      calls_made d ++ [Open cl]
        ++ map (fun c => Update (component_id c)) components ++ [Close cl] /\
    (forall c, In c components ->
               fault_states d' (device.fault_state c) = recorded c) /\
    (forall h, ~ In h (map device.fault_state components) ->
               fault_states d' h = fault_states d h).
Proof.
  intros Hc Hnd.
  unfold update_components, bind, gets. rewrite Hc.
  unfold with_, client_enter, client_exit, note, bind, modify, ret.
  change (for_each components _) with (for_each components guarded_update).
  rewrite loop_returns. simpl.
  eexists. split; [reflexivity |]. simpl.
  repeat split.
  - rewrite loop_calls. simpl. rewrite <- !app_assoc. reflexivity.
  - intros c Hin. rewrite loop_recorded by assumption. reflexivity.
  - intros h Hh. rewrite loop_untouched by assumption. reflexivity.
Qed.

Lemma update_components_isolates_failures_island :
  (client island_device = Some island_client /\
   NoDup (map device.fault_state batteries)) /\
  exists d',
    update_components batteries island_device = (Returned tt, d') /\
    calls_made d' =
      calls_made island_device ++ [Open island_client]
        ++ map (fun c => Update (component_id c)) batteries
        ++ [Close island_client] /\
    (forall c, In c batteries ->
               fault_states d' (device.fault_state c) = recorded c) /\
    (forall h, ~ In h (map device.fault_state batteries) ->
               fault_states d' h = fault_states island_device h).
Proof.
  assert (Hc : client island_device = Some island_client) by reflexivity.
  assert (Hnd : NoDup (map device.fault_state batteries)).
  { simpl. repeat constructor; simpl; intuition discriminate. }
  split; [split; [exact Hc | exact Hnd] |].
  exact (update_components_isolates_failures batteries island_device
           island_client Hc Hnd).
Defined.

(** On the island the first and the last battery fail: the second is
    updated all the same, and each fault state shows what happened. *)
Example island_cycle :
  fst (update_components batteries island_device) = Returned tt /\
  calls_made (snd (update_components batteries island_device)) =
    [Open island_client; Update 0; Update 1; Update 2; Close island_client] /\
  map (fault_states (snd (update_components batteries island_device)))
      [10; 11; 12]%nat =
    [from_exception (Exception "ConnectionError"); no_error;
     from_exception (Exception "ValueError")].
Proof. vm_compute. repeat split; reflexivity. Qed.

(** * Further properties of the code *)

(** ** Every accessor of the drivers *)

Module AccessorFacts.
Import Accessor.

Lemma bind_raise_step {St A B} (m : M St A) (k : A -> M St B) s e s1 :
  m s = (Raised e, s1) -> bind m k s = (Raised e, s1).
Proof. unfold bind. intros ->. reflexivity. Qed.

Lemma discard_returned {A} (m : Method A) s w s' w' :
  discard m (s, w) = (Returned tt, (s', w')) ->
  exists r, m (s, w) = (Returned r, (s', w')).
Proof.
  unfold discard. intros H.
  apply bind_Returned in H as (r & [s1 w1] & Hm & Hk).
  unfold ret in Hk. inversion Hk; subst. exists r. exact Hm.
Qed.

Lemma limited_gives {req answer s w s' w'} :
  limited req answer s w s' w' ->
  s' = set_last_query (ms_of_ns (clock w)) s /\
  exists tr, trace w' = trace w ++ tr /\ calls tr = [EvTimeNs; req].
Proof.
  intros (Hs & _ & _ & _ & tr & T & C & _). split; [exact Hs |].
  exists tr. split; assumption.
Qed.

Lemma list_read_returns address s w s1 w1 fs :
  _ensure_min_time_between_queries (s, w) = (Returned tt, (s1, w1)) ->
  input_float32s (env w) (reads_issued w) address 3 (id s) = Some fs ->
  exists w',
    limited_read_list address (s, w) = (Returned (map PyFloat fs), (s1, w')).
Proof.
  intros He Hv. unfold limited_read_list.
  erewrite bind_step by exact He.
  apply ensure_returned in He as (-> & Henv & Hn & _).
  unfold self, lift, modbus.read_input_registers_list, modbus.transact, bind,
    gets, modify, ret, raise, log, next_read, advance; simpl.
  rewrite Henv, Hn, Hv. eexists. reflexivity.
Qed.

Lemma fold_py_add_floats l : forall acc,
  fold_left py_add (map PyFloat l) (PyFloat acc)
  = PyFloat (fold_left fadd l acc).
Proof.
  induction l as [| a l IH]; intros acc; simpl; [reflexivity |]. apply IH.
Qed.

(** [sum] of a list of floats: the int 0 when the list is empty, and else
    the float to which the items add up from left to right. *)
Lemma sum_floats l :
  sum (map PyFloat l) =
    match l with
    | [] => PyInt 0
    | a :: rest => PyFloat (fold_left fadd rest (fadd f0_0 a))
    end.
Proof.
  destruct l as [| a rest]; [reflexivity |].
  unfold sum. simpl. apply fold_py_add_floats.
Qed.
End AccessorFacts.

Import Accessor AccessorFacts SnapshotSpec.

(** X1.  Each of the eleven accessors, when it returns, has gone through
    the rate limiter once and then issued exactly one read: an
    input-register read of its own register, of one FLOAT_32 or of three,
    to the unit of the driver.  Of the driver it has changed [last_query]
    and nothing else. *)
Theorem every_accessor_reads_its_register a s w s' w' :
  run a (s, w) = (Returned tt, (s', w')) ->
  s' = set_last_query (ms_of_ns (clock w)) s /\
  exists tr,
    trace w' = trace w ++ tr /\
    calls tr = [EvTimeNs; EvReadInput (address a) (types a) (id s)].
Proof.
  intros H. destruct a; apply discard_returned in H as (r & H).
  - apply (scalar_accessor_returned 0x0048 (fun v => fmul v (float_of_Z 1000)))
      in H as (v & _ & L). exact (limited_gives L).
  - apply (scalar_accessor_returned 0x004a (fun v => fmul v (float_of_Z 1000)))
      in H as (v & _ & L). exact (limited_gives L).
  - apply (scalar_accessor_returned 0x46 scaled_frequency)
      in H as (v & _ & L). exact (limited_gives L).
  - apply (limited_read_list_returned 0x06) in H. exact (limited_gives H).
  - apply (limited_read_list_returned 0x1E) in H. exact (limited_gives H).
  - apply (list_accessor_returned 0x0C (fun l => (l, sum l)))
      in H as (v & _ & L). exact (limited_gives L).
  - apply (limited_read_list_returned 0x00) in H. exact (limited_gives H).
  - apply (scalar_accessor_returned 0x0C
             (fun p => ([PyFloat p; PyInt 0; PyInt 0], PyFloat p)))
      in H as (v & _ & L). exact (limited_gives L).
  - apply (scalar_accessor_returned 0x06
             (fun v => [PyFloat v; PyFloat f0_0; PyFloat f0_0]))
      in H as (v & _ & L). exact (limited_gives L).
  - apply (scalar_accessor_returned 0x00
             (fun v => [PyFloat v; PyFloat f0_0; PyFloat f0_0]))
      in H as (v & _ & L). exact (limited_gives L).
  - apply (scalar_accessor_returned 0x1E
             (fun v => [PyFloat v; PyFloat f0_0; PyFloat f0_0]))
      in H as (v & _ & L). exact (limited_gives L).
Qed.

Lemma every_accessor_reads_its_register_bench :
  run Sdm630_72_get_voltages (bench_meter ThreePhase, bench_world ThreePhase)
    = (Returned tt, after (run Sdm630_72_get_voltages) ThreePhase) /\
  fst (after (run Sdm630_72_get_voltages) ThreePhase)
    = set_last_query (ms_of_ns (clock (bench_world ThreePhase)))
        (bench_meter ThreePhase) /\
  exists tr,
    trace (snd (after (run Sdm630_72_get_voltages) ThreePhase))
      = trace (bench_world ThreePhase) ++ tr /\
    calls tr =
      [EvTimeNs;
       EvReadInput (address Sdm630_72_get_voltages)
         (types Sdm630_72_get_voltages) (id (bench_meter ThreePhase))].
Proof.
  assert (H : run Sdm630_72_get_voltages
                (bench_meter ThreePhase, bench_world ThreePhase)
              = (Returned tt,
                 (fst (after (run Sdm630_72_get_voltages) ThreePhase),
                  snd (after (run Sdm630_72_get_voltages) ThreePhase))))
    by (vm_compute; reflexivity).
  split; [vm_compute; reflexivity |].
  exact (every_accessor_reads_its_register _ _ _ _ _ H).
Defined.

(** X2.  A read that the bus leaves unanswered makes its accessor raise the
    transport error, whichever accessor it is.  The limiter has run by
    then: the read was issued after its pass, and [last_query] is already
    the time of this attempt. *)
Theorem unanswered_read_raises a s w s1 w1 :
  _ensure_min_time_between_queries (s, w) = (Returned tt, (s1, w1)) ->
  unanswered a (env w) (reads_issued w) (id s) ->
  exists w',
    run a (s, w) = (Raised TransportError, (s1, w')) /\
    last_query s1 = ms_of_ns (clock w) /\
    exists tr,
      trace w' = trace w ++ tr /\
      calls tr = [EvTimeNs; EvReadInput (address a) (types a) (id s)].
Proof.
  intros He Hu.
  pose proof (ensure_returned _ _ _ _ He) as (Hs & Henv & Hn & tr & T & C & _).
  destruct a; unfold unanswered in Hu; simpl in Hu;
    unfold run, discard,
      get_imported, get_exported, get_frequency,
      Sdm630_72.get_currents, Sdm630_72.get_power_factors,
      Sdm630_72.get_power, Sdm630_72.get_voltages,
      Sdm120.get_power, Sdm120.get_currents, Sdm120.get_voltages,
      Sdm120.get_power_factors;
    unfold bind; rewrite He; subst s1;
    unfold self, lift, modbus.read_input_registers,
      modbus.read_input_registers_list, modbus.transact, bind,
      gets, modify, ret, raise, log, next_read, advance; simpl;
    rewrite Henv, Hn, Hu; simpl;
    (eexists; split; [reflexivity |]; split; [reflexivity |]; simpl;
     eexists; split; [rewrite T, <- app_assoc; reflexivity |];
     rewrite calls_app, C; reflexivity).
Qed.

Lemma unanswered_read_raises_bench :
  (_ensure_min_time_between_queries
     (Faulty.meter SinglePhase 1, Faulty.world SinglePhase 1)
   = (Returned tt,
      snd (_ensure_min_time_between_queries
             (Faulty.meter SinglePhase 1, Faulty.world SinglePhase 1))) /\
   unanswered Sdm_get_imported (env (Faulty.world SinglePhase 1))
     (reads_issued (Faulty.world SinglePhase 1))
     (id (Faulty.meter SinglePhase 1))) /\
  exists w',
    run Sdm_get_imported
        (Faulty.meter SinglePhase 1, Faulty.world SinglePhase 1)
      = (Raised TransportError,
         (fst (snd (_ensure_min_time_between_queries
                      (Faulty.meter SinglePhase 1,
                       Faulty.world SinglePhase 1))), w')) /\
    last_query
      (fst (snd (_ensure_min_time_between_queries
                   (Faulty.meter SinglePhase 1, Faulty.world SinglePhase 1))))
      = ms_of_ns (clock (Faulty.world SinglePhase 1)) /\
    exists tr,
      trace w' = trace (Faulty.world SinglePhase 1) ++ tr /\
      calls tr =
        [EvTimeNs;
         EvReadInput (address Sdm_get_imported) (types Sdm_get_imported)
           (id (Faulty.meter SinglePhase 1))].
Proof.
  assert (He : _ensure_min_time_between_queries
                 (Faulty.meter SinglePhase 1, Faulty.world SinglePhase 1)
               = (Returned tt,
                  (fst (snd (_ensure_min_time_between_queries
                               (Faulty.meter SinglePhase 1,
                                Faulty.world SinglePhase 1))),
                   snd (snd (_ensure_min_time_between_queries
                               (Faulty.meter SinglePhase 1,
                                Faulty.world SinglePhase 1))))))
    by (vm_compute; reflexivity).
  assert (Hu : unanswered Sdm_get_imported (env (Faulty.world SinglePhase 1))
                 (reads_issued (Faulty.world SinglePhase 1))
                 (id (Faulty.meter SinglePhase 1)))
    by (vm_compute; reflexivity).
  split; [split; [vm_compute; reflexivity | exact Hu] |].
  exact (unanswered_read_raises Sdm_get_imported _ _ _ _ He Hu).
Defined.

(** X3.  [get_imported] and [get_exported] return a thousand times what
    their register holds (0x0048 and 0x004a). *)
Theorem energy_counters_times_1000 s w s1 w1 i e :
  _ensure_min_time_between_queries (s, w) = (Returned tt, (s1, w1)) ->
  input_float32 (env w) (reads_issued w) 0x0048 (id s) = Some i ->
  input_float32 (env w) (reads_issued w) 0x004a (id s) = Some e ->
  (exists w', get_imported (s, w)
              = (Returned (fmul i (float_of_Z 1000)), (s1, w'))) /\
  (exists w', get_exported (s, w)
              = (Returned (fmul e (float_of_Z 1000)), (s1, w'))).
Proof.
  intros He Hi Hx. split.
  - exact (scalar_accessor_returns 0x0048
             (fun v => fmul v (float_of_Z 1000)) _ _ _ _ _ He Hi).
  - exact (scalar_accessor_returns 0x004a
             (fun v => fmul v (float_of_Z 1000)) _ _ _ _ _ He Hx).
Qed.

Lemma energy_counters_times_1000_bench :
  (_ensure_min_time_between_queries
     (bench_meter SinglePhase, bench_world SinglePhase)
   = (Returned tt, (limiter_meter SinglePhase, limiter_world SinglePhase)) /\
   forall address,
     input_float32 (env (bench_world SinglePhase))
       (reads_issued (bench_world SinglePhase)) address
       (id (bench_meter SinglePhase)) = Some (float_of_Z 50)) /\
  (exists w', get_imported (bench_meter SinglePhase, bench_world SinglePhase)
              = (Returned (fmul (float_of_Z 50) (float_of_Z 1000)),
                 (limiter_meter SinglePhase, w'))) /\
  (exists w', get_exported (bench_meter SinglePhase, bench_world SinglePhase)
              = (Returned (fmul (float_of_Z 50) (float_of_Z 1000)),
                 (limiter_meter SinglePhase, w'))).
Proof.
  assert (He : _ensure_min_time_between_queries
                 (bench_meter SinglePhase, bench_world SinglePhase)
               = (Returned tt,
                  (limiter_meter SinglePhase, limiter_world SinglePhase)))
    by (vm_compute; reflexivity).
  assert (Hv : forall address,
             input_float32 (env (bench_world SinglePhase))
               (reads_issued (bench_world SinglePhase)) address
               (id (bench_meter SinglePhase)) = Some (float_of_Z 50))
    by (intros address; reflexivity).
  split; [split; [exact He | exact Hv] |].
  exact (energy_counters_times_1000 _ _ _ _ _ _ He (Hv 0x0048) (Hv 0x004a)).
Defined.

(** X4.  The vector accessors of the three-phase meter hand out the list
    that the burst read returned as it is, whatever its length: nothing is
    scaled, padded or cut. *)
Theorem three_phase_vectors_as_read s w s1 w1 v c f :
  _ensure_min_time_between_queries (s, w) = (Returned tt, (s1, w1)) ->
  input_float32s (env w) (reads_issued w) 0x00 3 (id s) = Some v ->
  input_float32s (env w) (reads_issued w) 0x06 3 (id s) = Some c ->
  input_float32s (env w) (reads_issued w) 0x1E 3 (id s) = Some f ->
  (exists w', Sdm630_72.get_voltages (s, w)
              = (Returned (map PyFloat v), (s1, w'))) /\
  (exists w', Sdm630_72.get_currents (s, w)
              = (Returned (map PyFloat c), (s1, w'))) /\
  (exists w', Sdm630_72.get_power_factors (s, w)
              = (Returned (map PyFloat f), (s1, w'))).
Proof.
  intros He Hv Hc Hf. repeat split.
  - exact (list_read_returns 0x00 _ _ _ _ _ He Hv).
  - exact (list_read_returns 0x06 _ _ _ _ _ He Hc).
  - exact (list_read_returns 0x1E _ _ _ _ _ He Hf).
Qed.

Lemma three_phase_vectors_as_read_bench :
  (_ensure_min_time_between_queries
     (bench_meter ThreePhase, bench_world ThreePhase)
   = (Returned tt, (limiter_meter ThreePhase, limiter_world ThreePhase)) /\
   forall address,
     input_float32s (env (bench_world ThreePhase))
       (reads_issued (bench_world ThreePhase)) address 3
       (id (bench_meter ThreePhase))
     = Some [float_of_Z 100; float_of_Z 150; float_of_Z 120]) /\
  (exists w',
      Sdm630_72.get_voltages (bench_meter ThreePhase, bench_world ThreePhase)
      = (Returned (map PyFloat
                     [float_of_Z 100; float_of_Z 150; float_of_Z 120]),
         (limiter_meter ThreePhase, w'))) /\
  (exists w',
      Sdm630_72.get_currents (bench_meter ThreePhase, bench_world ThreePhase)
      = (Returned (map PyFloat
                     [float_of_Z 100; float_of_Z 150; float_of_Z 120]),
         (limiter_meter ThreePhase, w'))) /\
  (exists w',
      Sdm630_72.get_power_factors
          (bench_meter ThreePhase, bench_world ThreePhase)
      = (Returned (map PyFloat
                     [float_of_Z 100; float_of_Z 150; float_of_Z 120]),
         (limiter_meter ThreePhase, w'))).
Proof.
  assert (He : _ensure_min_time_between_queries
                 (bench_meter ThreePhase, bench_world ThreePhase)
               = (Returned tt,
                  (limiter_meter ThreePhase, limiter_world ThreePhase)))
    by (vm_compute; reflexivity).
  assert (Hv : forall address,
             input_float32s (env (bench_world ThreePhase))
               (reads_issued (bench_world ThreePhase)) address 3
               (id (bench_meter ThreePhase))
             = Some [float_of_Z 100; float_of_Z 150; float_of_Z 120])
    by (intros address; reflexivity).
  split; [split; [exact He | exact Hv] |].
  exact (three_phase_vectors_as_read _ _ _ _ _ _ _ He
           (Hv 0x00) (Hv 0x06) (Hv 0x1E)).
Defined.

(** X5.  The three-phase [get_power] takes a list of any length: the
    aggregate of an empty list is the int 0, and that of any other list the
    float to which its items add up from left to right, starting from
    0.0. *)
Theorem three_phase_power_of_any_list s w s1 w1 l :
  _ensure_min_time_between_queries (s, w) = (Returned tt, (s1, w1)) ->
  input_float32s (env w) (reads_issued w) 0x0C 3 (id s) = Some l ->
  exists w',
    Sdm630_72.get_power (s, w) =
      (Returned (map PyFloat l,
                 match l with
                 | [] => PyInt 0
                 | a :: rest => PyFloat (fold_left fadd rest (fadd f0_0 a))
                 end), (s1, w')).
Proof.
  intros He Hv.
  destruct (list_accessor_returns 0x0C (fun l => (l, sum l)) _ _ _ _ _ He Hv)
    as (w' & Hr).
  exists w'. rewrite <- sum_floats. exact Hr.
Qed.

Lemma three_phase_power_of_any_list_empty :
  (_ensure_min_time_between_queries
     (returned_or blank (fst (Sdm630_72.new 1 7%nat (Faulty.power_on_bursting []))),
      snd (Sdm630_72.new 1 7%nat (Faulty.power_on_bursting [])))
   = (Returned tt,
      snd (_ensure_min_time_between_queries
             (returned_or blank
                (fst (Sdm630_72.new 1 7%nat (Faulty.power_on_bursting []))),
              snd (Sdm630_72.new 1 7%nat (Faulty.power_on_bursting []))))) /\
   input_float32s
     (env (snd (Sdm630_72.new 1 7%nat (Faulty.power_on_bursting []))))
     (reads_issued (snd (Sdm630_72.new 1 7%nat (Faulty.power_on_bursting []))))
     0x0C 3
     (id (returned_or blank
            (fst (Sdm630_72.new 1 7%nat (Faulty.power_on_bursting [])))))
   = Some []) /\
  exists w',
    Sdm630_72.get_power
      (returned_or blank (fst (Sdm630_72.new 1 7%nat (Faulty.power_on_bursting []))),
       snd (Sdm630_72.new 1 7%nat (Faulty.power_on_bursting [])))
    = (Returned (map PyFloat [], PyInt 0),
       (fst (snd (_ensure_min_time_between_queries
                    (returned_or blank
                       (fst (Sdm630_72.new 1 7%nat
                               (Faulty.power_on_bursting []))),
                     snd (Sdm630_72.new 1 7%nat
                            (Faulty.power_on_bursting []))))), w')).
Proof.
  assert (He : _ensure_min_time_between_queries
     (returned_or blank (fst (Sdm630_72.new 1 7%nat (Faulty.power_on_bursting []))),
      snd (Sdm630_72.new 1 7%nat (Faulty.power_on_bursting [])))
   = (Returned tt,
      (fst (snd (_ensure_min_time_between_queries
             (returned_or blank
                (fst (Sdm630_72.new 1 7%nat (Faulty.power_on_bursting []))),
              snd (Sdm630_72.new 1 7%nat (Faulty.power_on_bursting []))))),
       snd (snd (_ensure_min_time_between_queries
             (returned_or blank
                (fst (Sdm630_72.new 1 7%nat (Faulty.power_on_bursting []))),
              snd (Sdm630_72.new 1 7%nat (Faulty.power_on_bursting []))))))))
    by (vm_compute; reflexivity).
  assert (Hv : input_float32s
     (env (snd (Sdm630_72.new 1 7%nat (Faulty.power_on_bursting []))))
     (reads_issued (snd (Sdm630_72.new 1 7%nat (Faulty.power_on_bursting []))))
     0x0C 3
     (id (returned_or blank
            (fst (Sdm630_72.new 1 7%nat (Faulty.power_on_bursting [])))))
   = Some []) by reflexivity.
  split; [split; [vm_compute; reflexivity | exact Hv] |].
  exact (three_phase_power_of_any_list _ _ _ _ [] He Hv).
Defined.

(** X6.  A driver that was constructed has the unit id and the fault state
    it was given and an interval of 100 ms; its [last_query] is the time at
    which the construction began, before the read of the serial number, and
    the construction has issued one read and taken the time of that read. *)
Theorem constructed_driver v modbus_id fs w n :
  holding_uint32 (env w) (reads_issued w) 0xFC00 modbus_id = Some n ->
  exists s w',
    new_of v modbus_id fs w = (Returned s, w') /\
    id s = modbus_id /\
    WAIT_MS_BETWEEN_QUERIES s = 100 /\
    Sdm.fault_state s = fs /\
    last_query s = ms_of_ns (clock w) /\
    clock w' = clock w + Z.of_N (read_latency (env w) (reads_issued w)) /\
    reads_issued w' = S (reads_issued w) /\
    env w' = env w.
Proof.
  intros Hn.
  destruct v; unfold new_of, Sdm630_72.new, Sdm120.new, construct,
    Sdm630_72.__init__, Sdm120.__init__, Sdm.__init__, _get_time_ms,
    time.time_ns, with_, modbus.enter, modbus.exit,
    modbus.read_holding_registers, modbus.transact, self, assign, lift,
    bind, gets, modify, ret, raise, log, next_read, advance; simpl;
    rewrite Hn; simpl;
    (eexists; eexists; split; [reflexivity |]; simpl;
     repeat split; reflexivity).
Qed.

Lemma constructed_driver_bench :
  holding_uint32 (env power_on) (reads_issued power_on) 0xFC00 1
    = Some 21034567 /\
  exists s w',
    new_of SinglePhase 1 7%nat power_on = (Returned s, w') /\
    id s = 1 /\
    WAIT_MS_BETWEEN_QUERIES s = 100 /\
    Sdm.fault_state s = 7%nat /\
    last_query s = ms_of_ns (clock power_on) /\
    clock w' = clock power_on
               + Z.of_N (read_latency (env power_on) (reads_issued power_on)) /\
    reads_issued w' = S (reads_issued power_on) /\
    env w' = env power_on.
Proof.
  assert (Hn : holding_uint32 (env power_on) (reads_issued power_on) 0xFC00 1
               = Some 21034567) by reflexivity.
  split; [exact Hn |].
  exact (constructed_driver SinglePhase 1 7%nat power_on _ Hn).
Defined.

(** ** The snapshots *)

(** X7.  Which answer goes where in a three-phase snapshot: the reads of
    one call are the next seven that the bus sees, and the fields of the
    snapshot are made of their answers, the energies a thousand times the
    reading, the power the [sum] of the phase powers, the frequency scaled
    as [get_frequency] scales it, and the serial number the one stored in
    the driver. *)
Theorem three_phase_snapshot_content s w cs s' w' :
  Sdm630_72.get_counter_state (s, w) = (Returned cs, (s', w')) ->
  exists p i e v c f q,
    input_float32s (env w) (reads_issued w) 0x0C 3 (id s) = Some p /\
    input_float32 (env w) (1 + reads_issued w) 0x0048 (id s) = Some i /\
    input_float32 (env w) (2 + reads_issued w) 0x004a (id s) = Some e /\
    input_float32s (env w) (3 + reads_issued w) 0x00 3 (id s) = Some v /\
    input_float32s (env w) (4 + reads_issued w) 0x06 3 (id s) = Some c /\
    input_float32s (env w) (5 + reads_issued w) 0x1E 3 (id s) = Some f /\
    input_float32 (env w) (6 + reads_issued w) 0x46 (id s) = Some q /\
    cs = {| imported := fmul i (float_of_Z 1000);
            exported := fmul e (float_of_Z 1000);
            power := sum (map PyFloat p);
            voltages := Some (map PyFloat v);
            currents := map PyFloat c;
            powers := map PyFloat p;
            power_factors := Some (map PyFloat f);
            frequency := scaled_frequency q;
            component_state.serial_number := Sdm.serial_number s |}.
Proof.
  unfold Sdm630_72.get_counter_state. intros H.
  step H H1. destruct a as [powers power].
  step H H2. step H H3. step H H4. step H H5. step H H6. step H H7.
  apply (list_accessor_returned 0x0C (fun l => (l, sum l))) in H1
    as (l1 & E1 & -> & Henv1 & Hn1 & (p & A1 & ->) & _).
  apply (scalar_accessor_returned 0x0048 (fun v => fmul v (float_of_Z 1000)))
    in H2 as (i & -> & -> & Henv2 & Hn2 & A2 & _).
  apply (scalar_accessor_returned 0x004a (fun v => fmul v (float_of_Z 1000)))
    in H3 as (e & -> & -> & Henv3 & Hn3 & A3 & _).
  apply (limited_read_list_returned 0x00) in H4
    as (-> & Henv4 & Hn4 & (v & A4 & ->) & _).
  apply (limited_read_list_returned 0x06) in H5
    as (-> & Henv5 & Hn5 & (c & A5 & ->) & _).
  apply (limited_read_list_returned 0x1E) in H6
    as (-> & Henv6 & Hn6 & (f & A6 & ->) & _).
  apply (scalar_accessor_returned 0x46 scaled_frequency)
    in H7 as (q & -> & -> & Henv7 & Hn7 & A7 & _).
  inversion E1; subst powers power; clear E1.
  simpl in *.
  rewrite Henv1 in *. rewrite Henv2 in *. rewrite Henv3 in *.
  rewrite Henv4 in *. rewrite Henv5 in *. rewrite Henv6 in *.
  rewrite Hn1 in *. rewrite Hn2 in *. rewrite Hn3 in *.
  rewrite Hn4 in *. rewrite Hn5 in *. rewrite Hn6 in *.
  revert H.
  unfold get_serial_number, self, lift, hardware_check.check_meter_values,
    bind, gets, modify, ret, log; simpl.
  intros H. inversion H; subst; clear H.
  exists p, i, e, v, c, f, q. repeat split; assumption.
Qed.

Lemma three_phase_snapshot_content_bench :
  Sdm630_72.get_counter_state (bench_meter ThreePhase, bench_world ThreePhase)
    = (Returned (bench_counter_state ThreePhase),
       (snapshot_meter ThreePhase, snapshot_world ThreePhase)) /\
  exists p i e v c f q,
    input_float32s (env (bench_world ThreePhase))
      (reads_issued (bench_world ThreePhase)) 0x0C 3
      (id (bench_meter ThreePhase)) = Some p /\
    input_float32 (env (bench_world ThreePhase))
      (1 + reads_issued (bench_world ThreePhase)) 0x0048
      (id (bench_meter ThreePhase)) = Some i /\
    input_float32 (env (bench_world ThreePhase))
      (2 + reads_issued (bench_world ThreePhase)) 0x004a
      (id (bench_meter ThreePhase)) = Some e /\
    input_float32s (env (bench_world ThreePhase))
      (3 + reads_issued (bench_world ThreePhase)) 0x00 3
      (id (bench_meter ThreePhase)) = Some v /\
    input_float32s (env (bench_world ThreePhase))
      (4 + reads_issued (bench_world ThreePhase)) 0x06 3
      (id (bench_meter ThreePhase)) = Some c /\
    input_float32s (env (bench_world ThreePhase))
      (5 + reads_issued (bench_world ThreePhase)) 0x1E 3
      (id (bench_meter ThreePhase)) = Some f /\
    input_float32 (env (bench_world ThreePhase))
      (6 + reads_issued (bench_world ThreePhase)) 0x46
      (id (bench_meter ThreePhase)) = Some q /\
    bench_counter_state ThreePhase =
      {| imported := fmul i (float_of_Z 1000);
         exported := fmul e (float_of_Z 1000);
         power := sum (map PyFloat p);
         voltages := Some (map PyFloat v);
         currents := map PyFloat c;
         powers := map PyFloat p;
         power_factors := Some (map PyFloat f);
         frequency := scaled_frequency q;
         component_state.serial_number :=
           Sdm.serial_number (bench_meter ThreePhase) |}.
Proof.
  assert (H : Sdm630_72.get_counter_state
                (bench_meter ThreePhase, bench_world ThreePhase)
              = (Returned (bench_counter_state ThreePhase),
                 (snapshot_meter ThreePhase, snapshot_world ThreePhase)))
    by (vm_compute; reflexivity).
  split; [exact H |].
  exact (three_phase_snapshot_content _ _ _ _ _ H).
Defined.

(** X8.  The same for the single-phase meter and its five reads: the power
    is the reading itself, the phase powers are the reading followed by
    the ints 0 and 0, the currents the reading followed by the floats 0.0
    and 0.0, and [voltages] and [power_factors] are not passed. *)
Theorem single_phase_snapshot_content s w cs s' w' :
  Sdm120.get_counter_state (s, w) = (Returned cs, (s', w')) ->
  exists p i e c q,
    input_float32 (env w) (reads_issued w) 0x0C (id s) = Some p /\
    input_float32 (env w) (1 + reads_issued w) 0x0048 (id s) = Some i /\
    input_float32 (env w) (2 + reads_issued w) 0x004a (id s) = Some e /\
    input_float32 (env w) (3 + reads_issued w) 0x06 (id s) = Some c /\
    input_float32 (env w) (4 + reads_issued w) 0x46 (id s) = Some q /\
    cs = {| imported := fmul i (float_of_Z 1000);
            exported := fmul e (float_of_Z 1000);
            power := PyFloat p;
            voltages := None;
            currents := [PyFloat c; PyFloat f0_0; PyFloat f0_0];
            powers := [PyFloat p; PyInt 0; PyInt 0];
            power_factors := None;
            frequency := scaled_frequency q;
            component_state.serial_number := Sdm.serial_number s |}.
Proof.
  unfold Sdm120.get_counter_state. intros H.
  step H H1. destruct a as [powers power].
  step H H2. step H H3. step H H4. step H H5.
  apply (scalar_accessor_returned 0x0C
           (fun p => ([PyFloat p; PyInt 0; PyInt 0], PyFloat p))) in H1
    as (p & E1 & -> & Henv1 & Hn1 & A1 & _).
  apply (scalar_accessor_returned 0x0048 (fun v => fmul v (float_of_Z 1000)))
    in H2 as (i & -> & -> & Henv2 & Hn2 & A2 & _).
  apply (scalar_accessor_returned 0x004a (fun v => fmul v (float_of_Z 1000)))
    in H3 as (e & -> & -> & Henv3 & Hn3 & A3 & _).
  apply (scalar_accessor_returned 0x06
           (fun v => [PyFloat v; PyFloat f0_0; PyFloat f0_0])) in H4
    as (c & -> & -> & Henv4 & Hn4 & A4 & _).
  apply (scalar_accessor_returned 0x46 scaled_frequency)
    in H5 as (q & -> & -> & Henv5 & Hn5 & A5 & _).
  inversion E1; subst powers power; clear E1.
  simpl in *.
  rewrite Henv1 in *. rewrite Henv2 in *. rewrite Henv3 in *.
  rewrite Henv4 in *.
  rewrite Hn1 in *. rewrite Hn2 in *. rewrite Hn3 in *. rewrite Hn4 in *.
  revert H.
  unfold get_serial_number, self, lift, hardware_check.check_meter_values,
    bind, gets, modify, ret, log; simpl.
  intros H. inversion H; subst; clear H.
  exists p, i, e, c, q. repeat split; assumption.
Qed.

Lemma single_phase_snapshot_content_bench :
  Sdm120.get_counter_state (bench_meter SinglePhase, bench_world SinglePhase)
    = (Returned (bench_counter_state SinglePhase),
       (snapshot_meter SinglePhase, snapshot_world SinglePhase)) /\
  exists p i e c q,
    input_float32 (env (bench_world SinglePhase))
      (reads_issued (bench_world SinglePhase)) 0x0C
      (id (bench_meter SinglePhase)) = Some p /\
    input_float32 (env (bench_world SinglePhase))
      (1 + reads_issued (bench_world SinglePhase)) 0x0048
      (id (bench_meter SinglePhase)) = Some i /\
    input_float32 (env (bench_world SinglePhase))
      (2 + reads_issued (bench_world SinglePhase)) 0x004a
      (id (bench_meter SinglePhase)) = Some e /\
    input_float32 (env (bench_world SinglePhase))
      (3 + reads_issued (bench_world SinglePhase)) 0x06
      (id (bench_meter SinglePhase)) = Some c /\
    input_float32 (env (bench_world SinglePhase))
      (4 + reads_issued (bench_world SinglePhase)) 0x46
      (id (bench_meter SinglePhase)) = Some q /\
    bench_counter_state SinglePhase =
      {| imported := fmul i (float_of_Z 1000);
         exported := fmul e (float_of_Z 1000);
         power := PyFloat p;
         voltages := None;
         currents := [PyFloat c; PyFloat f0_0; PyFloat f0_0];
         powers := [PyFloat p; PyInt 0; PyInt 0];
         power_factors := None;
         frequency := scaled_frequency q;
         component_state.serial_number :=
           Sdm.serial_number (bench_meter SinglePhase) |}.
Proof.
  assert (H : Sdm120.get_counter_state
                (bench_meter SinglePhase, bench_world SinglePhase)
              = (Returned (bench_counter_state SinglePhase),
                 (snapshot_meter SinglePhase, snapshot_world SinglePhase)))
    by (vm_compute; reflexivity).
  split; [exact H |].
  exact (single_phase_snapshot_content _ _ _ _ _ H).
Defined.

(** ** What no method of a driver changes *)

Module IdentityFacts.

Lemma same_identity_refl s : same_identity s s.
Proof. repeat split. Qed.

Lemma same_identity_trans {s1 s2 s3} :
  same_identity s1 s2 -> same_identity s2 s3 -> same_identity s1 s3.
Proof.
  intros (A1 & A2 & A3 & A4) (B1 & B2 & B3 & B4).
  repeat split; congruence.
Qed.

Lemma preserves_ret {A} (a : A) : preserves (ret a).
Proof.
  intros s w r s' w' H. unfold ret in H. inversion H. apply same_identity_refl.
Qed.

Lemma preserves_bind {A B} (m : Method A) (k : A -> Method B) :
  preserves m -> (forall a, preserves (k a)) -> preserves (bind m k).
Proof.
  intros Hm Hk s w r s' w' H. unfold bind in H.
  destruct (m (s, w)) as [[a | e] [s1 w1]] eqn:E.
  - apply (same_identity_trans (Hm _ _ _ _ _ E) (Hk a _ _ _ _ _ H)).
  - inversion H; subst. exact (Hm _ _ _ _ _ E).
Qed.

Lemma preserves_lift {A} (m : M World A) : preserves (lift m).
Proof.
  intros s w r s' w' H. unfold lift in H. simpl in H.
  destruct (m w) as [r0 w0]. inversion H. apply same_identity_refl.
Qed.

Lemma preserves_self {A} (f : Sdm.t -> A) : preserves (self f).
Proof.
  intros s w r s' w' H. unfold self, gets in H. inversion H.
  apply same_identity_refl.
Qed.

Lemma preserves_last_query v : preserves (assign (set_last_query v)).
Proof.
  intros s w r s' w' H. unfold assign, modify in H. inversion H.
  repeat split.
Qed.

Ltac preserve :=
  repeat first
    [ apply preserves_ret
    | apply preserves_lift
    | apply preserves_self
    | apply preserves_last_query
    | apply preserves_bind; [| intros ?]
    | match goal with |- preserves (if ?b then _ else _) => destruct b end
    | match goal with |- preserves (let (_, _) := ?p in _) => destruct p end ].

Lemma preserves_ensure : preserves _ensure_min_time_between_queries.
Proof. unfold _ensure_min_time_between_queries, _get_time_ms. preserve. Qed.

Lemma preserves_run a : preserves (run a).
Proof.
  destruct a; unfold run, discard,
    get_imported, get_exported, get_frequency,
    Sdm630_72.get_currents, Sdm630_72.get_power_factors,
    Sdm630_72.get_power, Sdm630_72.get_voltages,
    Sdm120.get_power, Sdm120.get_currents, Sdm120.get_voltages,
    Sdm120.get_power_factors;
  preserve; apply preserves_ensure.
Qed.

Lemma preserves_snapshot v : preserves (get_counter_state_of v).
Proof.
  destruct v; unfold get_counter_state_of, Sdm630_72.get_counter_state,
    Sdm120.get_counter_state, get_serial_number,
    get_imported, get_exported, get_frequency,
    Sdm630_72.get_currents, Sdm630_72.get_power_factors,
    Sdm630_72.get_power, Sdm630_72.get_voltages,
    Sdm120.get_power, Sdm120.get_currents;
  preserve; apply preserves_ensure.
Qed.
End IdentityFacts.
Import IdentityFacts.

(** X9.  However it ends, with a value or with an exception, no accessor,
    no snapshot and no pass of the limiter changes the unit id, the
    interval, the serial number or the fault state of the driver: the one
    attribute that a constructed driver ever changes is [last_query]. *)
Theorem methods_keep_identity s w s' w' :
  (exists a r, run a (s, w) = (r, (s', w'))) \/
  (exists v r, get_counter_state_of v (s, w) = (r, (s', w'))) \/
  (exists r, _ensure_min_time_between_queries (s, w) = (r, (s', w'))) ->
  same_identity s s'.
Proof.
  intros [(a & r & H) | [(v & r & H) | (r & H)]].
  - exact (preserves_run a _ _ _ _ _ H).
  - exact (preserves_snapshot v _ _ _ _ _ H).
  - exact (preserves_ensure _ _ _ _ _ H).
Qed.

Lemma methods_keep_identity_failing :
  ((exists a r,
       run a (Faulty.meter ThreePhase 3, Faulty.world ThreePhase 3)
       = (r, (fst (snd (get_counter_state_of ThreePhase
                          (Faulty.meter ThreePhase 3,
                           Faulty.world ThreePhase 3))),
              snd (snd (get_counter_state_of ThreePhase
                          (Faulty.meter ThreePhase 3,
                           Faulty.world ThreePhase 3)))))) \/
   (exists v r,
       get_counter_state_of v
         (Faulty.meter ThreePhase 3, Faulty.world ThreePhase 3)
       = (r, (fst (snd (get_counter_state_of ThreePhase
                          (Faulty.meter ThreePhase 3,
                           Faulty.world ThreePhase 3))),
              snd (snd (get_counter_state_of ThreePhase
                          (Faulty.meter ThreePhase 3,
                           Faulty.world ThreePhase 3)))))) \/
   (exists r,
       _ensure_min_time_between_queries
         (Faulty.meter ThreePhase 3, Faulty.world ThreePhase 3)
       = (r, (fst (snd (get_counter_state_of ThreePhase
                          (Faulty.meter ThreePhase 3,
                           Faulty.world ThreePhase 3))),
              snd (snd (get_counter_state_of ThreePhase
                          (Faulty.meter ThreePhase 3,
                           Faulty.world ThreePhase 3))))))) /\
  same_identity (Faulty.meter ThreePhase 3)
    (fst (snd (get_counter_state_of ThreePhase
                 (Faulty.meter ThreePhase 3, Faulty.world ThreePhase 3)))).
Proof.
  assert (H : (exists a r,
       run a (Faulty.meter ThreePhase 3, Faulty.world ThreePhase 3)
       = (r, (fst (snd (get_counter_state_of ThreePhase
                          (Faulty.meter ThreePhase 3,
                           Faulty.world ThreePhase 3))),
              snd (snd (get_counter_state_of ThreePhase
                          (Faulty.meter ThreePhase 3,
                           Faulty.world ThreePhase 3)))))) \/
   (exists v r,
       get_counter_state_of v
         (Faulty.meter ThreePhase 3, Faulty.world ThreePhase 3)
       = (r, (fst (snd (get_counter_state_of ThreePhase
                          (Faulty.meter ThreePhase 3,
                           Faulty.world ThreePhase 3))),
              snd (snd (get_counter_state_of ThreePhase
                          (Faulty.meter ThreePhase 3,
                           Faulty.world ThreePhase 3)))))) \/
   (exists r,
       _ensure_min_time_between_queries
         (Faulty.meter ThreePhase 3, Faulty.world ThreePhase 3)
       = (r, (fst (snd (get_counter_state_of ThreePhase
                          (Faulty.meter ThreePhase 3,
                           Faulty.world ThreePhase 3))),
              snd (snd (get_counter_state_of ThreePhase
                          (Faulty.meter ThreePhase 3,
                           Faulty.world ThreePhase 3))))))).
  { right. left. exists ThreePhase, (Raised TransportError).
    vm_compute. reflexivity. }
  split; [exact H |].
  exact (methods_keep_identity _ _ _ _ H).
Defined.

(** X10.  A snapshot that fails, in either variant, has issued the register
    reads of a snapshot in their order up to the one at which it failed and
    no other, and has not called [check_meter_values]. *)
Theorem failed_snapshot_is_not_checked v s w e s' w' :
  get_counter_state_of v (s, w) = (Raised e, (s', w')) ->
  exists tr rest,
    trace w' = trace w ++ tr /\
    checks tr = [] /\
    register_reads tr ++ rest =
      filter is_register_read
        match v with
        | ThreePhase => three_phase_calls (id s)
        | SinglePhase => single_phase_calls (id s)
        end.
Proof. exact (failed_snapshot_unchecked v s w e s' w'). Qed.

Lemma failed_snapshot_is_not_checked_bench :
  get_counter_state_of ThreePhase
      (Faulty.meter ThreePhase 3, Faulty.world ThreePhase 3)
    = (Raised TransportError,
       snd (get_counter_state_of ThreePhase
              (Faulty.meter ThreePhase 3, Faulty.world ThreePhase 3))) /\
  exists tr rest,
    trace (snd (snd (get_counter_state_of ThreePhase
                       (Faulty.meter ThreePhase 3,
                        Faulty.world ThreePhase 3))))
      = trace (Faulty.world ThreePhase 3) ++ tr /\
    checks tr = [] /\
    register_reads tr ++ rest =
      filter is_register_read
        (three_phase_calls (id (Faulty.meter ThreePhase 3))).
Proof.
  assert (H : get_counter_state_of ThreePhase
                (Faulty.meter ThreePhase 3, Faulty.world ThreePhase 3)
              = (Raised TransportError,
                 (fst (snd (get_counter_state_of ThreePhase
                              (Faulty.meter ThreePhase 3,
                               Faulty.world ThreePhase 3))),
                  snd (snd (get_counter_state_of ThreePhase
                              (Faulty.meter ThreePhase 3,
                               Faulty.world ThreePhase 3))))))
    by (vm_compute; reflexivity).
  split; [vm_compute; reflexivity |].
  exact (failed_snapshot_is_not_checked ThreePhase _ _ _ _ _ H).
Defined.

(** X11.  When the read of the serial number fails, the construction of a
    driver raises the transport error and hands out no object; it has
    issued its one read all the same, and has left the session of the
    client closed. *)
Theorem failed_construction_closes_session v modbus_id fs w :
  holding_uint32 (env w) (reads_issued w) 0xFC00 modbus_id = None ->
  exists w',
    new_of v modbus_id fs w = (Raised TransportError, w') /\
    trace w' = trace w ++
      [(clock w, EvTimeNs); (clock w, EvEnter);
       (clock w, EvReadHolding 0xFC00 (One UINT_32) modbus_id);
       (clock w', EvExit)] /\
    reads_issued w' = S (reads_issued w).
Proof.
  intros Hn.
  destruct v; unfold new_of, Sdm630_72.new, Sdm120.new, construct,
    Sdm630_72.__init__, Sdm120.__init__, Sdm.__init__, _get_time_ms,
    time.time_ns, with_, modbus.enter, modbus.exit,
    modbus.read_holding_registers, modbus.transact, self, assign, lift,
    bind, gets, modify, ret, raise, log, next_read, advance; simpl;
    rewrite Hn; simpl;
    (eexists; split; [reflexivity |]; simpl;
     split; [rewrite <- !app_assoc; reflexivity | reflexivity]).
Qed.

Lemma failed_construction_closes_session_bench :
  holding_uint32 (env (Faulty.power_on_failing_at 0))
    (reads_issued (Faulty.power_on_failing_at 0)) 0xFC00 1 = None /\
  exists w',
    new_of ThreePhase 1 7%nat (Faulty.power_on_failing_at 0)
      = (Raised TransportError, w') /\
    trace w' = trace (Faulty.power_on_failing_at 0) ++
      [(clock (Faulty.power_on_failing_at 0), EvTimeNs);
       (clock (Faulty.power_on_failing_at 0), EvEnter);
       (clock (Faulty.power_on_failing_at 0),
        EvReadHolding 0xFC00 (One UINT_32) 1);
       (clock w', EvExit)] /\
    reads_issued w' = S (reads_issued (Faulty.power_on_failing_at 0)).
Proof.
  assert (Hn : holding_uint32 (env (Faulty.power_on_failing_at 0))
                 (reads_issued (Faulty.power_on_failing_at 0)) 0xFC00 1
               = None) by reflexivity.
  split; [exact Hn |].
  exact (failed_construction_closes_session ThreePhase 1 7%nat _ Hn).
Defined.

(** ** The update cycles of the device *)

Module CycleFacts.
Import Cycles.

Lemma loop_client components : forall d,
  client (fold_left (fun d c => after_update c d) components d) = client d.
Proof.
  induction components as [| c rest IH]; intros d; simpl; [reflexivity |].
  rewrite IH. reflexivity.
Qed.

Lemma loop_faults_ext components : forall d1 d2,
  fault_states d1 = fault_states d2 ->
  fault_states (fold_left (fun d c => after_update c d) components d1)
  = fault_states (fold_left (fun d c => after_update c d) components d2).
Proof.
  induction components as [| c rest IH]; intros d1 d2 H; simpl; [exact H |].
  apply IH. simpl. rewrite H. reflexivity.
Qed.

(** One cycle on a device that has its client: it returns, whatever the
    components do. *)
Lemma update_components_returns components d cl :
  client d = Some cl ->
  update_components components d = (Returned tt, after_cycle cl components d).
Proof.
  intros Hc.
  unfold update_components, bind, gets. rewrite Hc.
  unfold with_, client_enter, client_exit, note, bind, modify, ret.
  change (for_each components _) with (for_each components guarded_update).
  rewrite loop_returns. simpl.
  unfold after_cycle, bracket. f_equal. f_equal.
  - rewrite loop_client. reflexivity.
  - rewrite loop_calls. simpl. rewrite <- !app_assoc. reflexivity.
  - apply loop_faults_ext. reflexivity.
Qed.

Lemma cycles_returns rounds : forall d cl,
  client d = Some cl ->
  exists d',
    cycles rounds d = (Returned tt, d') /\
    client d' = Some cl /\
    calls_made d' = calls_made d ++ List.concat (map (bracket cl) rounds).
Proof.
  induction rounds as [| r rest IH]; intros d cl Hc.
  - exists d. simpl. rewrite app_nil_r. auto.
  - unfold cycles. simpl. unfold bind.
    rewrite (update_components_returns r d cl Hc).
    destruct (IH (after_cycle cl r d) cl Hc) as (d' & R & C & L).
    exists d'. split; [exact R |]. split; [exact C |].
    rewrite L. simpl. rewrite <- app_assoc. reflexivity.
Qed.

Lemma scan_app l1 : forall o l2,
  scan o (l1 ++ l2) =
    match scan o l1 with Some o' => scan o' l2 | None => None end.
Proof.
  induction l1 as [| c l1 IH]; intros o l2; simpl; [reflexivity |].
  destruct c, o; try reflexivity; apply IH.
Qed.

Lemma scan_updates (components : list SunnyIslandBat) rest :
  scan true (map (fun c => Update (component_id c)) components ++ rest)
  = scan true rest.
Proof.
  induction components as [| c l IH]; simpl; [reflexivity | exact IH].
Qed.

Lemma scan_bracket cl components :
  scan false (bracket cl components) = Some false.
Proof. unfold bracket. simpl. rewrite scan_updates. reflexivity. Qed.

Lemma scan_brackets cl rounds :
  scan false (List.concat (map (bracket cl) rounds)) = Some false.
Proof.
  induction rounds as [| r rest IH]; [reflexivity |].
  cbn [map List.concat]. rewrite scan_app, scan_bracket. exact IH.
Qed.
End CycleFacts.
Import Cycles CycleFacts.

(** X12.  Any number of update cycles, one after the other and each with
    components of its own, leave the sessions of the client well
    bracketed: every cycle opens the session once, updates its components
    in their order inside it and closes it, so that no session is opened
    inside another, no component is updated outside one, and none is left
    open.  No cycle raises. *)
Theorem cycles_keep_sessions_bracketed rounds d cl :
  client d = Some cl ->
  well_bracketed (calls_made d) ->
  exists d',
    cycles rounds d = (Returned tt, d') /\
    calls_made d' = calls_made d ++ List.concat (map (bracket cl) rounds) /\
    well_bracketed (calls_made d').
Proof.
  intros Hc Hw.
  destruct (cycles_returns rounds d cl Hc) as (d' & R & _ & L).
  exists d'. split; [exact R |]. split; [exact L |].
  unfold well_bracketed in *. rewrite L, scan_app, Hw. apply scan_brackets.
Qed.

Lemma cycles_keep_sessions_bracketed_island :
  (client island_device = Some island_client /\
   well_bracketed (calls_made island_device)) /\
  exists d',
    cycles [batteries; []; twins] island_device = (Returned tt, d') /\
    calls_made d' =
      calls_made island_device
        ++ List.concat (map (bracket island_client) [batteries; []; twins]) /\
    well_bracketed (calls_made d').
Proof.
  assert (Hc : client island_device = Some island_client) by reflexivity.
  assert (Hw : well_bracketed (calls_made island_device)) by reflexivity.
  split; [split; [exact Hc | exact Hw] |].
  exact (cycles_keep_sessions_bracketed [batteries; []; twins]
           island_device island_client Hc Hw).
Defined.

(** X13.  Components need not have fault states of their own for a cycle
    to go through: a fault state that several components of the list
    share shows, after the cycle, the outcome of the last of them. *)
Theorem shared_fault_state_shows_last_update pre c post d cl :
  client d = Some cl ->
  (forall c', In c' post -> device.fault_state c' <> device.fault_state c) ->
  exists d',
    update_components (pre ++ c :: post) d = (Returned tt, d') /\
    fault_states d' (device.fault_state c) = recorded c.
Proof.
  intros Hc Hp.
  rewrite (update_components_returns _ d cl Hc).
  eexists. split; [reflexivity |]. simpl.
  rewrite fold_left_app. simpl.
  rewrite loop_untouched.
  - simpl. rewrite Nat.eqb_refl. reflexivity.
  - intros Hi. apply in_map_iff in Hi as (c' & E & Hin).
    exact (Hp c' Hin E).
Qed.

Lemma shared_fault_state_shows_last_update_twins :
  (client island_device = Some island_client /\
   forall c', In c' [] ->
     device.fault_state c' <>
     device.fault_state
       {| component_id := 1; device.fault_state := 10%nat;
          update_raises := None |}) /\
  exists d',
    update_components
      ([ {| component_id := 0; device.fault_state := 10%nat;
            update_raises := Some (Exception "ConnectionError") |} ]
       ++ {| component_id := 1; device.fault_state := 10%nat;
             update_raises := None |} :: [])
      island_device = (Returned tt, d') /\
    fault_states d'
      (device.fault_state
         {| component_id := 1; device.fault_state := 10%nat;
            update_raises := None |})
    = recorded {| component_id := 1; device.fault_state := 10%nat;
                  update_raises := None |}.
Proof.
  assert (Hc : client island_device = Some island_client) by reflexivity.
  assert (Hp : forall c', In c' [] ->
     device.fault_state c' <>
     device.fault_state
       {| component_id := 1; device.fault_state := 10%nat;
          update_raises := None |}) by (intros c' []).
  split; [split; [exact Hc | exact Hp] |].
  exact (shared_fault_state_shows_last_update _ _ _ island_device
           island_client Hc Hp).
Defined.

(** X14.  Before [initializer] has run the closure has no client:
    [update_components] raises at once, having opened no session, updated
    no component and touched no fault state. *)
Theorem update_before_initializer_touches_nothing components d :
  client d = None ->
  exists e, update_components components d = (Raised e, d).
Proof.
  intros Hc. unfold update_components, bind, gets. rewrite Hc.
  eexists. reflexivity.
Qed.

Lemma update_before_initializer_touches_nothing_island :
  client (create_device (fun _ => no_error)) = None /\
  exists e,
    update_components batteries (create_device (fun _ => no_error))
    = (Raised e, create_device (fun _ => no_error)).
Proof.
  assert (Hc : client (create_device (fun _ => no_error)) = None)
    by reflexivity.
  split; [exact Hc |].
  exact (update_before_initializer_touches_nothing batteries _ Hc).
Defined.

(** X15.  [initializer] makes the client from the address and the port of
    the configuration, and it is this client whose session a following
    [update_components] opens and closes, and which
    [create_bat_component] passes to a component made from then on; a
    component made before [initializer] ran is passed no client. *)
Theorem initializer_provides_the_client configuration components d :
  exists d1 d2,
    initializer configuration d = (Returned tt, d1) /\
    update_components components d1 = (Returned tt, d2) /\
    calls_made d2 =
      calls_made d ++
        bracket {| host := ip_address configuration;
                   tcp_port := port configuration |} components /\
    forall (Setup : Type) (setup : Setup),
      fst (create_bat_component setup d1) =
        Returned (setup, Some {| host := ip_address configuration;
                                 tcp_port := port configuration |}) /\
      fst (create_bat_component setup (create_device (fault_states d))) =
        Returned (setup, None).
Proof.
  eexists. eexists. split; [reflexivity |]. split.
  - apply update_components_returns. reflexivity.
  - split; [reflexivity |]. intros Setup setup. split; reflexivity.
Qed.
